(** * urban-gen layer store: bounds computation, record store, upload router

    A shallow embedding of [deploy/api/app/database.py] and
    [deploy/api/app/routers/layers.py], and the properties of the layer
    storage service stated over it.

    - Parsed JSON documents are the inductive type [json]; Python's
      [json.loads] yields [None], [bool], [int], [float], [str], [list] and
      [dict], one constructor each.
    - Python numbers are compared exactly (an [int] against a [float] too), so
      a float is modelled by its exact rational value or one of the three
      special values; no arithmetic is ever performed on coordinates, only
      [<], [>] and [==].
    - Python exceptions are values of [exn]; a computation that may raise
      returns a [result].
    - The storage directory is a pair of finite maps keyed by layer id, one
      for each of the two file names derived from an id. *)

From Stdlib Require Import ZArith QArith String Ascii List Bool Lqa.
From Stdlib Require Import Sorting.Sorted Sorting.Permutation.
From stdpp Require Import gmap strings list fin_maps.

Open Scope string_scope.
Open Scope Z_scope.

(** ** Python values *)

(** A Python [float]: a finite value (every finite double is a rational), or
    one of [inf], [-inf], [nan]. *)
Inductive pyfloat : Type :=
| FFinite (q : Q)
| FPosInf
| FNegInf
| FNaN.

(** The values for which [isinstance(v, (int, float))] holds.  [bool] is a
    subclass of [int] in Python. *)
Inductive num : Type :=
| NBool (b : bool)
| NInt (z : Z)
| NFloat (f : pyfloat).

(** What [json.loads] returns. A [dict] keeps its items in insertion order. *)
#[local] Unset Elimination Schemes.
Inductive json : Type :=
| JNull
| JBool (b : bool)
| JInt (z : Z)
| JFloat (f : pyfloat)
| JStr (s : string)
| JList (l : list json)
| JDict (d : list (string * json)).
#[local] Set Elimination Schemes.

(** Induction over nested documents. *)
Section JsonInduction.
Variable P : json -> Prop.
Hypothesis Hnull : P JNull.
Hypothesis Hbool : forall b, P (JBool b).
Hypothesis Hint : forall z, P (JInt z).
Hypothesis Hfloat : forall f, P (JFloat f).
Hypothesis Hstr : forall s, P (JStr s).
Hypothesis Hlist : forall l, Forall P l -> P (JList l).
Hypothesis Hdict : forall d, Forall (fun kv => P (snd kv)) d -> P (JDict d).

Fixpoint json_nested_ind (j : json) : P j :=
  match j with
  | JNull => Hnull
  | JBool b => Hbool b
  | JInt z => Hint z
  | JFloat f => Hfloat f
  | JStr s => Hstr s
  | JList l =>
      Hlist l
        ((fix items (l : list json) : Forall P l :=
            match l with
            | [] => List.Forall_nil P
            | x :: l' => @List.Forall_cons _ P x l' (json_nested_ind x) (items l')
            end) l)
  | JDict d =>
      Hdict d
        ((fix items (d : list (string * json)) : Forall (fun kv => P (snd kv)) d :=
            match d with
            | [] => List.Forall_nil _
            | kv :: d' =>
                @List.Forall_cons _ (fun kv => P (snd kv)) kv d'
                  (json_nested_ind (snd kv)) (items d')
            end) d)
  end.
End JsonInduction.

(** Exceptions the modelled code can raise. The detail of an [HTTPException]
    is kept structured instead of formatted. *)
Inductive http_detail : Type :=
| BadFileSuffix
| InvalidJSON
| InvalidGeoJSON
| LayerNotFound (layer_id : string)
| UploadFailed.

Inductive exn : Type :=
| IndexError
| TypeError
| KeyError
| AttributeError
| RecursionError
| OSError
| JSONDecodeError
| UnicodeDecodeError
| ValidationError
| ValueError
| HTTPException (status_code : Z) (detail : http_detail).

Inductive result (A : Type) : Type :=
| Ok (a : A)
| Raise (e : exn).
Arguments Ok {A} a.
Arguments Raise {A} e.

(** ** Number comparison *)

(** The numeric value of a number: [True] is 1 and [False] is 0. *)
Definition value (n : num) : pyfloat :=
  match n with
  | NBool b => FFinite (if b then 1%Q else 0%Q)
  | NInt z => FFinite (inject_Z z)
  | NFloat f => f
  end.

Definition Qltb (p q : Q) : bool :=
  (Qnum p * Zpos (Qden q) <? Qnum q * Zpos (Qden p))%Z.

(** [a < b] on values; every comparison with [nan] is false. *)
Definition float_lt (a b : pyfloat) : bool :=
  match a, b with
  | FNaN, _ | _, FNaN => false
  | _, FNegInf => false
  | FNegInf, _ => true
  | FPosInf, _ => false
  | FFinite _, FPosInf => true
  | FFinite p, FFinite q => Qltb p q
  end.

(** [a == b] on values. *)
Definition float_eq (a b : pyfloat) : bool :=
  match a, b with
  | FFinite p, FFinite q => Qeq_bool p q
  | FPosInf, FPosInf => true
  | FNegInf, FNegInf => true
  | _, _ => false
  end.

Definition py_lt (a b : num) : bool := float_lt (value a) (value b).
Definition py_gt (a b : num) : bool := float_lt (value b) (value a).
Definition py_eq (a b : num) : bool := float_eq (value a) (value b).
(** [a <= b], used to state bounds. *)
Definition float_le (a b : pyfloat) : bool := float_lt a b || float_eq a b.
Definition py_le (a b : num) : bool := float_le (value a) (value b).

(** The builtin [min(a, b)]: the first argument unless the second is
    strictly smaller; [max(a, b)]: the first unless the second is strictly
    greater. *)
Definition py_min (a b : num) : num := if py_lt b a then b else a.
Definition py_max (a b : num) : num := if py_gt b a then b else a.

Definition inf : num := NFloat FPosInf.
Definition neg_inf : num := NFloat FNegInf.

(** ** Document helpers *)

(** [isinstance(v, (int, float))] together with the number it is. *)
Definition as_number (v : json) : option num :=
  match v with
  | JBool b => Some (NBool b)
  | JInt z => Some (NInt z)
  | JFloat f => Some (NFloat f)
  | _ => None
  end.

Definition of_number (n : num) : json :=
  match n with
  | NBool b => JBool b
  | NInt z => JInt z
  | NFloat f => JFloat f
  end.

(** Truth value of a document in a condition ([if coords:], [if features:]). *)
Definition truthy (v : json) : bool :=
  match v with
  | JNull => false
  | JBool b => b
  | JInt z => negb (z =? 0)
  | JFloat (FFinite q) => negb (Qeq_bool q 0)
  | JFloat _ => true
  | JStr s => negb (String.eqb s "")
  | JList l => match l with [] => false | _ => true end
  | JDict d => match d with [] => false | _ => true end
  end.

(** [d.get(key)] on the items of a dict; [None] when the key is missing. *)
Fixpoint dict_get (d : list (string * json)) (key : string) : option json :=
  match d with
  | [] => None
  | (k, v) :: d' => if String.eqb k key then Some v else dict_get d' key
  end.

Definition dict_get_or (d : list (string * json)) (key : string) (default : json) : json :=
  match dict_get d key with
  | Some x => x
  | None => default
  end.

(** [v.get(key, default)]: only a dict has the method. *)
Definition py_get (v : json) (key : string) (default : json) : result json :=
  match v with
  | JDict d => Ok (dict_get_or d key default)
  | _ => Raise AttributeError
  end.

(** ** database.py: calculate_bounds *)

(** The four [nonlocal] accumulators of [calculate_bounds]. *)
Record accumulators : Type := mk_acc {
  min_lng : num;
  min_lat : num;
  max_lng : num;
  max_lat : num;
}.

Definition initial : accumulators := mk_acc inf inf neg_inf neg_inf.

(** The leaf branch: [lng, lat = coords[0], coords[1]] followed by the four
    updates. [lng] is known to be a number; comparing a float with a [lat]
    that is not a number raises [TypeError]. *)
Definition update (st : accumulators) (lng : num) (c1 : json) : result accumulators :=
  match as_number c1 with
  | None => Raise TypeError
  | Some lat =>
      Ok (mk_acc (py_min (min_lng st) lng) (py_min (min_lat st) lat)
                 (py_max (max_lng st) lng) (py_max (max_lat st) lat))
  end.

(** [process_coords(coords)], threading the accumulators.

    - [coords[0]] raises [IndexError] on an empty list or string, [KeyError]
      on a dict (its keys are strings) and [TypeError] on anything else;
    - a non-empty string never terminates: [s[0]] is a one-character string,
      not a number, and iterating over a one-character string yields that
      string again, so the interpreter gives up with [RecursionError].

    The recursion follows the nesting of the document, which is finite; the
    interpreter's recursion limit is not modelled otherwise. *)
Fixpoint process_coords (coords : json) (st : accumulators) : result accumulators :=
  match coords with
  | JList l =>
      match l with
      | [] => Raise IndexError
      | c0 :: rest =>
          match as_number c0 with
          | Some lng =>
              match rest with
              | [] => Raise IndexError
              | c1 :: _ => update st lng c1
              end
          | None =>
              (fix each (cs : list json) (st : accumulators) : result accumulators :=
                 match cs with
                 | [] => Ok st
                 | coord :: cs' =>
                     match process_coords coord st with
                     | Ok st' => each cs' st'
                     | Raise e => Raise e
                     end
                 end) l st
          end
      end
  | JStr s => if String.eqb s "" then Raise IndexError else Raise RecursionError
  | JDict _ => Raise KeyError
  | JNull | JBool _ | JInt _ | JFloat _ => Raise TypeError
  end.

(** The loop [for coord in coords: process_coords(coord)]. *)
Fixpoint process_each (cs : list json) (st : accumulators) : result accumulators :=
  match cs with
  | [] => Ok st
  | coord :: cs' =>
      match process_coords coord st with
      | Ok st' => process_each cs' st'
      | Raise e => Raise e
      end
  end.

(** One iteration of [for feature in features]. *)
Definition process_feature (feature : json) (st : accumulators) : result accumulators :=
  match py_get feature "geometry" (JDict []) with
  | Raise e => Raise e
  | Ok geom =>
      match py_get geom "coordinates" JNull with
      | Raise e => Raise e
      | Ok coords => if truthy coords then process_coords coords st else Ok st
      end
  end.

Fixpoint process_features (features : list json) (st : accumulators) : result accumulators :=
  match features with
  | [] => Ok st
  | feature :: features' =>
      match process_feature feature st with
      | Ok st' => process_features features' st'
      | Raise e => Raise e
      end
  end.

(** [calculate_bounds(features)]: [Ok None] is the Python [None]. *)
Definition calculate_bounds (features : list json) : result (option (list num)) :=
  match features with
  | [] => Ok None
  | _ =>
      match process_features features initial with
      | Raise e => Raise e
      | Ok st =>
          if py_eq (min_lng st) inf then Ok None
          else Ok (Some [min_lng st; min_lat st; max_lng st; max_lat st])
      end
  end.

(** ** The storage directory *)

(** The metadata dict built by [save_layer] and stored as
    [<layer_id>.meta.json]. Its eight keys are fixed, so the dict is a record;
    field [md_k] is key ['k']. [geometry_type] holds whatever
    [first_geom.get('type')] returned ([JNull] for [None]). *)
Record metadata : Type := mk_metadata {
  md_id : string;
  md_name : string;
  md_description : option string;
  md_feature_count : Z;
  md_geometry_type : json;
  md_bounds : option (list num);
  md_created_at : string;
  md_file_size : Z;
}.

(** The two files of a layer inside [LAYERS_DIR]: [<layer_id>.geojson] and
    [<layer_id>.meta.json]. The two name patterns never produce the same file
    name, and each is injective in the id. *)
Inductive path : Type :=
| GeoJSONFile (layer_id : string)
| MetadataFile (layer_id : string).

Definition get_layer_path (layer_id : string) : path := GeoJSONFile layer_id.
Definition get_metadata_path (layer_id : string) : path := MetadataFile layer_id.

(** The content of [LAYERS_DIR]. A file holds the document that [json.load]
    reads back from it. *)
Record store : Type := mk_store {
  geojson_files : gmap string json;
  meta_files : gmap string metadata;
}.

Definition path_exists (s : store) (p : path) : bool :=
  match p with
  | GeoJSONFile i => match geojson_files s !! i with Some _ => true | None => false end
  | MetadataFile i => match meta_files s !! i with Some _ => true | None => false end
  end.

Definition unlink (s : store) (p : path) : store :=
  match p with
  | GeoJSONFile i => mk_store (delete i (geojson_files s)) (meta_files s)
  | MetadataFile i => mk_store (geojson_files s) (delete i (meta_files s))
  end.

(** [LAYERS_DIR.glob('*.meta.json')] followed by [json.load] of each file, in
    the order in which the directory is enumerated. *)
Definition glob_meta (s : store) : list metadata :=
  (map_to_list (meta_files s)).*2.

(** What the code reads from its surroundings: the clock, the random
    generator, the size of a serialised document, and whether [open(p, 'w')]
    raises [OSError] (in which case the file is neither created nor
    changed). *)
Record environment : Type := mk_env {
  now_isoformat : string;
  uuid4 : string;
  getsize : json -> Z;
  open_fails : path -> bool;
}.

(** Computations over the directory that may raise. *)
Definition io (A : Type) : Type := store -> store * result A.

Definition ret {A} (a : A) : io A := fun s => (s, Ok a).
Definition raise {A} (e : exn) : io A := fun s => (s, Raise e).
Definition bind {A B} (m : io A) (k : A -> io B) : io B :=
  fun s =>
    match m s with
    | (s', Ok a) => k a s'
    | (s', Raise e) => (s', Raise e)
    end.
Definition lift {A} (r : result A) : io A := fun s => (s, r).

Notation "'let!' x ':=' m 'in' k" := (bind m (fun x => k))
  (at level 10, x name, m at level 100, k at level 200).
Notation "'do!' m 'in' k" := (bind m (fun _ => k))
  (at level 10, m at level 100, k at level 200).

(** [try: m except Exception as e: raise handler(e)]. *)
Definition try_except {A} (m : io A) (handler : exn -> exn) : io A :=
  fun s =>
    match m s with
    | (s', Ok a) => (s', Ok a)
    | (s', Raise e) => (s', Raise (handler e))
    end.

(** [with open(p, 'w') as f: json.dump(doc, f)] for each kind of file.  The
    failure that is modelled is [open] raising, which happens before the file
    is created or truncated.  A [json.dump] that fails after the file was
    opened would leave a truncated file behind; the directory of the model
    holds complete documents only, so that failure is outside it. *)
Definition write_geojson (env : environment) (layer_id : string) (doc : json) : io unit :=
  fun s =>
    if open_fails env (get_layer_path layer_id) then (s, Raise OSError)
    else (mk_store (<[layer_id := doc]> (geojson_files s)) (meta_files s), Ok tt).

Definition write_metadata (env : environment) (layer_id : string) (md : metadata) : io unit :=
  fun s =>
    if open_fails env (get_metadata_path layer_id) then (s, Raise OSError)
    else (mk_store (geojson_files s) (<[layer_id := md]> (meta_files s)), Ok tt).

(** ** Sequences *)

(** The items a [for] loop or [len] sees: the elements of a list, the
    one-character strings of a string, the keys of a dict; [None] for a value
    that is not a sequence. *)
Fixpoint chars (s : string) : list json :=
  match s with
  | EmptyString => []
  | String c s' => JStr (String c EmptyString) :: chars s'
  end.

Definition py_items (v : json) : option (list json) :=
  match v with
  | JList l => Some l
  | JStr s => Some (chars s)
  | JDict d => Some (map (fun kv => JStr (fst kv)) d)
  | _ => None
  end.

(** [v[0]]. *)
Definition py_index0 (v : json) : result json :=
  match v with
  | JList (x :: _) => Ok x
  | JList [] => Raise IndexError
  | JStr (String c _) => Ok (JStr (String c EmptyString))
  | JStr EmptyString => Raise IndexError
  | JDict _ => Raise KeyError
  | _ => Raise TypeError
  end.

(** ** database.py: the record store *)

Module database.

(** [generate_layer_id()]: the first eight characters of the drawn UUID. *)
Definition generate_layer_id (env : environment) : string :=
  substring 0 8 (uuid4 env).

(** The metadata computed between the two writes of [save_layer]. *)
Definition compute_metadata (env : environment) (layer_id name : string)
    (geojson : json) (description : option string) : result metadata :=
  match py_get geojson "features" (JList []) with
  | Raise e => Raise e
  | Ok features =>
      match py_items features with
      | None => Raise TypeError
      | Some items =>
          let feature_count := Z.of_nat (length items) in
          let geometry_type :=
            if truthy features then
              match py_index0 features with
              | Raise e => Raise e
              | Ok first =>
                  match py_get first "geometry" (JDict []) with
                  | Raise e => Raise e
                  | Ok first_geom => py_get first_geom "type" JNull
                  end
              end
            else Ok JNull in
          match geometry_type with
          | Raise e => Raise e
          | Ok geometry_type =>
              match calculate_bounds items with
              | Raise e => Raise e
              | Ok bounds =>
                  Ok (mk_metadata layer_id name description feature_count
                        geometry_type bounds (now_isoformat env) (getsize env geojson))
              end
          end
      end
  end.

(** [save_layer(layer_id, name, geojson, description)]. *)
Definition save_layer (env : environment) (layer_id name : string)
    (geojson : json) (description : option string) : io metadata :=
  do! write_geojson env layer_id geojson in
  let! metadata := lift (compute_metadata env layer_id name geojson description) in
  do! write_metadata env layer_id metadata in
  ret metadata.

(** [get_layer(layer_id)]. *)
Definition get_layer (s : store) (layer_id : string) : option metadata :=
  if path_exists s (get_metadata_path layer_id) then meta_files s !! layer_id
  else None.

(** [get_layer_geojson(layer_id)]. *)
Definition get_layer_geojson (s : store) (layer_id : string) : option json :=
  if path_exists s (get_layer_path layer_id) then geojson_files s !! layer_id
  else None.

(** [layers.sort(key=lambda x: x.get('created_at', ''), reverse=True)]: the
    builtin sort is stable, and with [reverse=True] it still keeps items with
    equal keys in their original order. Keys are strings, compared with [<]
    code point by code point. *)
Fixpoint insert_desc (x : metadata) (l : list metadata) : list metadata :=
  match l with
  | [] => [x]
  | y :: l' =>
      if String.ltb (md_created_at x) (md_created_at y) then y :: insert_desc x l'
      else x :: l
  end.

Definition sort_desc (l : list metadata) : list metadata :=
  foldr insert_desc [] l.

(** [list_layers()]. *)
Definition list_layers (s : store) : list metadata :=
  sort_desc (glob_meta s).

(** [delete_layer(layer_id)]: the directory afterwards and the returned flag. *)
Definition delete_layer (s : store) (layer_id : string) : store * bool :=
  let geojson_path := get_layer_path layer_id in
  let meta_path := get_metadata_path layer_id in
  let deleted := false in
  let '(s, deleted) :=
    if path_exists s geojson_path then (unlink s geojson_path, true) else (s, deleted) in
  let '(s, deleted) :=
    if path_exists s meta_path then (unlink s meta_path, true) else (s, deleted) in
  (s, deleted).

End database.

(** ** routers/layers.py: the HTTP handlers *)

(** [s.endswith(suffix)] and [s.endswith((suffix1, suffix2))]. *)
Definition endswith (s suffix : string) : bool :=
  let n := String.length s in
  let m := String.length suffix in
  (m <=? n)%nat && String.eqb (substring (n - m) m s) suffix.

Definition endswith_any (s : string) (suffixes : list string) : bool :=
  existsb (endswith s) suffixes.

(** [s.rsplit('.', 1)[0]]: what precedes the last dot, or all of [s] when it
    has no dot. [before_last_dot] is [None] when there is no dot. *)
Fixpoint before_last_dot (s : string) : option string :=
  match s with
  | EmptyString => None
  | String c s' =>
      match before_last_dot s' with
      | Some h => Some (String c h)
      | None => if Ascii.eqb c "."%char then Some EmptyString else None
      end
  end.

Definition rsplit_dot_head (s : string) : string :=
  match before_last_dot s with
  | Some h => h
  | None => s
  end.

(** [v == s] for a string literal [s]. *)
Definition eq_str (v : json) (s : string) : bool :=
  match v with
  | JStr s' => String.eqb s' s
  | _ => false
  end.

(** [key in d] on the items of a dict. *)
Definition dict_has (d : list (string * json)) (key : string) : bool :=
  match dict_get d key with
  | Some _ => true
  | None => false
  end.

(** The bytes of an uploaded file, by what
    [json.loads(content.decode('utf-8'))] does with them. *)
Inductive file_content : Type :=
| NotUtf8
| NotJson
| JsonText (v : json).

Definition loads_decode (content : file_content) : result json :=
  match content with
  | NotUtf8 => Raise UnicodeDecodeError
  | NotJson => Raise JSONDecodeError
  | JsonText v => Ok v
  end.

Record UploadResponse : Type := mk_UploadResponse {
  success : bool;
  up_layer_id : string;
  up_name : string;
  up_feature_count : Z;
  message : string;
}.

Record LayerListResponse : Type := mk_LayerListResponse {
  layers : list metadata;
  total : Z;
}.

(** What the handlers get from pydantic and Starlette, whose code is not
    part of the repository:
    - [validates layer]: building a [LayerInfo] from the record passes the validation of the
      field types declared in [models.py] (otherwise [ValidationError]);
    - [renders_model layer]: the [LayerInfo] is serialised as the response
      declared by [response_model] (otherwise [ValueError]);
    - [renders_json content]: [JSONResponse(content=content)] renders its
      content (otherwise [ValueError]).
    An exception other than [HTTPException] that leaves a handler is answered
    with status 500. *)
Record framework : Type := mk_framework {
  validates : metadata -> bool;
  renders_model : metadata -> bool;
  renders_json : json -> bool;
}.

Module layers.

(** A [LayerInfo] built from a stored record and returned as the response
    of an endpoint.  The
    record is returned as stored: pydantic's coercion of field values (an
    integer bound read as a float) is not modelled. *)
Definition LayerInfo (fw : framework) (layer : metadata) : result metadata :=
  if validates fw layer then
    if renders_model fw layer then Ok layer else Raise ValueError
  else Raise ValidationError.

(** [GET /layers]: every record goes through [LayerInfo] before the response
    is built and serialised. *)
Definition list_layers (fw : framework) (s : store) : result LayerListResponse :=
  let layers := database.list_layers s in
  if forallb (validates fw) layers then
    if forallb (renders_model fw) layers then
      Ok (mk_LayerListResponse layers (Z.of_nat (length layers)))
    else Raise ValueError
  else Raise ValidationError.

(** [GET /layers/{layer_id}]. *)
Definition get_layer (fw : framework) (s : store) (layer_id : string) : result metadata :=
  match database.get_layer s layer_id with
  | None => Raise (HTTPException 404 (LayerNotFound layer_id))
  | Some layer => LayerInfo fw layer
  end.

(** [GET /layers/{layer_id}/geojson]. *)
Definition get_layer_geojson (fw : framework) (s : store) (layer_id : string)
    : result json :=
  match database.get_layer_geojson s layer_id with
  | None => Raise (HTTPException 404 (LayerNotFound layer_id))
  | Some geojson =>
      if truthy geojson then
        if renders_json fw geojson then Ok geojson else Raise ValueError
      else Raise (HTTPException 404 (LayerNotFound layer_id))
  end.

(** The "validate GeoJSON structure" block of [upload_layer]: a feature
    collection passes, a feature or a value with a ['coordinates'] key is
    wrapped, anything else is refused. *)
Definition wrap_geojson (geojson : json) : result json :=
  match geojson with
  | JDict d =>
      let type := dict_get_or d "type" JNull in
      if negb (eq_str type "FeatureCollection") then
        if eq_str type "Feature" then
          Ok (JDict [("type", JStr "FeatureCollection"); ("features", JList [geojson])])
        else if dict_has d "coordinates" then
          Ok (JDict [("type", JStr "FeatureCollection");
                     ("features",
                      JList [JDict [("type", JStr "Feature");
                                    ("geometry", geojson);
                                    ("properties", JDict [])]])])
        else Raise (HTTPException 400 InvalidGeoJSON)
      else Ok geojson
  | _ => Raise AttributeError
  end.

(** The two [except] clauses of [upload_layer]. [HTTPException] is an
    [Exception], so the second clause also catches the one raised inside the
    [try] block. *)
Definition upload_handler (e : exn) : exn :=
  match e with
  | JSONDecodeError => HTTPException 400 InvalidJSON
  | _ => HTTPException 500 UploadFailed
  end.

(** [POST /layers/upload]. *)
Definition upload_layer (env : environment) (filename : string)
    (content : file_content) (name description : option string) : io UploadResponse :=
  if negb (endswith_any filename [".geojson"; ".json"]) then
    raise (HTTPException 400 BadFileSuffix)
  else
    try_except
      (let! geojson := lift (loads_decode content) in
       let! geojson := lift (wrap_geojson geojson) in
       let layer_id := database.generate_layer_id env in
       let layer_name :=
         match name with
         | Some n => if String.eqb n "" then rsplit_dot_head filename else n
         | None => rsplit_dot_head filename
         end in
       let! metadata := database.save_layer env layer_id layer_name geojson description in
       ret (mk_UploadResponse true layer_id layer_name (md_feature_count metadata)
              ("Layer '" ++ layer_name ++ "' uploaded successfully")))
      upload_handler.

(** [DELETE /layers/{layer_id}]. *)
Definition delete_layer (s : store) (layer_id : string) : store * result bool :=
  match database.get_layer s layer_id with
  | None => (s, Raise (HTTPException 404 (LayerNotFound layer_id)))
  | Some _ =>
      let '(s', _) := database.delete_layer s layer_id in
      (s', Ok true)
  end.

End layers.

(** [handle] serves one request of the HTTP interface; [serve_all] a sequence
    of them, one after the other. *)
Inductive request : Type :=
| ListLayers
| GetLayer (layer_id : string)
| GetLayerGeojson (layer_id : string)
| UploadLayer (env : environment) (filename : string) (content : file_content)
    (name description : option string)
| DeleteLayer (layer_id : string).

Inductive response : Type :=
| RLayerList (r : result LayerListResponse)
| RLayerInfo (r : result metadata)
| RGeojson (r : result json)
| RUpload (r : result UploadResponse)
| RDelete (r : result bool).

Definition handle (fw : framework) (s : store) (req : request) : store * response :=
  match req with
  | ListLayers => (s, RLayerList (layers.list_layers fw s))
  | GetLayer layer_id => (s, RLayerInfo (layers.get_layer fw s layer_id))
  | GetLayerGeojson layer_id => (s, RGeojson (layers.get_layer_geojson fw s layer_id))
  | UploadLayer env filename content name description =>
      let '(s', r) := layers.upload_layer env filename content name description s in
      (s', RUpload r)
  | DeleteLayer layer_id =>
      let '(s', r) := layers.delete_layer s layer_id in
      (s', RDelete r)
  end.

Fixpoint serve_all (fw : framework) (s : store) (reqs : list request) : store :=
  match reqs with
  | [] => s
  | req :: reqs' => serve_all fw (fst (handle fw s req)) reqs'
  end.

(** ** Vocabulary of the properties *)

(** The coordinates entry that [calculate_bounds] reads from a feature, if
    there is one. *)
Definition coordinates_of (feature : json) : option json :=
  match feature with
  | JDict d =>
      match dict_get d "geometry" with
      | Some (JDict g) => dict_get g "coordinates"
      | _ => None
      end
  | _ => None
  end.

(** A feature that carries no coordinates: an object without geometry, or
    whose geometry is an object with no coordinates entry or with an empty
    (falsy) one. *)
Definition no_coordinates (feature : json) : bool :=
  match feature with
  | JDict d =>
      match dict_get d "geometry" with
      | None => true
      | Some (JDict g) =>
          match dict_get g "coordinates" with
          | None => true
          | Some coords => negb (truthy coords)
          end
      | Some _ => false
      end
  | _ => false
  end.

(** The coordinate pairs the walk reaches in a coordinates structure: a list
    that starts with a number is a leaf and gives its first two entries;
    any other list is walked element by element. *)
Fixpoint coord_pairs (coords : json) : list (num * num) :=
  match coords with
  | JList l =>
      match l with
      | [] => []
      | c0 :: rest =>
          match as_number c0 with
          | Some x =>
              match rest with
              | c1 :: _ =>
                  match as_number c1 with
                  | Some y => [(x, y)]
                  | None => []
                  end
              | [] => []
              end
          | None => flat_map coord_pairs l
          end
      end
  | _ => []
  end.

(** A coordinates structure without malformed nodes: every leaf has two
    numbers in front, every other node is a non-empty list of such
    structures. *)
Fixpoint well_formed (coords : json) : bool :=
  match coords with
  | JList l =>
      match l with
      | [] => false
      | c0 :: rest =>
          match as_number c0 with
          | Some _ =>
              match rest with
              | c1 :: _ => match as_number c1 with Some _ => true | None => false end
              | [] => false
              end
          | None => forallb well_formed l
          end
      end
  | _ => false
  end.

Definition well_formed_feature (feature : json) : bool :=
  no_coordinates feature ||
  match coordinates_of feature with
  | Some coords => well_formed coords
  | None => false
  end.

Definition feature_pairs (feature : json) : list (num * num) :=
  match coordinates_of feature with
  | Some coords => if truthy coords then coord_pairs coords else []
  | None => []
  end.

Definition all_pairs (features : list json) : list (num * num) :=
  flat_map feature_pairs features.

Definition is_nan (n : num) : bool :=
  match value n with
  | FNaN => true
  | _ => false
  end.

(** An empty list sits at a position the walk visits. *)
Fixpoint visits_empty (coords : json) : bool :=
  match coords with
  | JList l =>
      match l with
      | [] => true
      | c0 :: _ =>
          match as_number c0 with
          | Some _ => false
          | None => existsb visits_empty l
          end
      end
  | _ => false
  end.

(** Cutting every leaf down to its first two entries. *)
Fixpoint truncate_leaves (coords : json) : json :=
  match coords with
  | JList l =>
      match l with
      | [] => coords
      | c0 :: rest =>
          match as_number c0 with
          | Some _ => JList (c0 :: firstn 1 rest)
          | None => JList (map truncate_leaves l)
          end
      end
  | _ => coords
  end.

(** [d] with [f] applied to the value stored under [key]. *)
Fixpoint dict_update (d : list (string * json)) (key : string) (f : json -> json)
    : list (string * json) :=
  match d with
  | [] => []
  | (k, v) :: d' =>
      if String.eqb k key then (k, f v) :: d' else (k, v) :: dict_update d' key f
  end.

Definition truncate_feature (feature : json) : json :=
  match feature with
  | JDict d =>
      JDict (dict_update d "geometry"
               (fun geom =>
                  match geom with
                  | JDict g => JDict (dict_update g "coordinates" truncate_leaves)
                  | _ => geom
                  end))
  | _ => feature
  end.

(** The one-feature collection built around a bare geometry. *)
Definition geometry_collection (geometry : json) : json :=
  JDict [("type", JStr "FeatureCollection");
         ("features",
          JList [JDict [("type", JStr "Feature");
                        ("geometry", geometry);
                        ("properties", JDict [])]])].

(** The raw-data file of [layer_id] exists and its metadata file does not. *)
Definition orphaned (s : store) (layer_id : string) : Prop :=
  path_exists s (get_layer_path layer_id) = true /\
  path_exists s (get_metadata_path layer_id) = false.

(** The order in which [list_layers] has to return its entries: no entry is
    created before a later one. *)
Definition newest_first (a b : metadata) : Prop :=
  String.leb (md_created_at b) (md_created_at a) = true.

Definition created_at_is (t : string) (md : metadata) : bool :=
  String.eqb (md_created_at md) t.

(** The accumulators after one coordinate pair, and after a sequence of
    pairs in visiting order. *)
Definition absorb (st : accumulators) (xy : num * num) : accumulators :=
  mk_acc (py_min (min_lng st) (fst xy)) (py_min (min_lat st) (snd xy))
         (py_max (max_lng st) (fst xy)) (py_max (max_lat st) (snd xy)).

Definition absorb_all (pairs : list (num * num)) (st : accumulators) : accumulators :=
  fold_left absorb pairs st.

(** The accumulators enclose a pair. *)
Definition encloses (st : accumulators) (xy : num * num) : Prop :=
  py_le (min_lng st) (fst xy) = true /\ py_le (fst xy) (max_lng st) = true /\
  py_le (min_lat st) (snd xy) = true /\ py_le (snd xy) (max_lat st) = true.

Definition no_nan (st : accumulators) : Prop :=
  is_nan (min_lng st) = false /\ is_nan (min_lat st) = false /\
  is_nan (max_lng st) = false /\ is_nan (max_lat st) = false.

(** Neither coordinate of the pair is [nan]. *)
Definition pair_no_nan (xy : num * num) : bool :=
  negb (is_nan (fst xy)) && negb (is_nan (snd xy)).

(** The x of the pair is below [+inf]. *)
Definition x_below_inf (xy : num * num) : bool := py_lt (fst xy) inf.

(** Sample documents. *)
Definition point_feature (x y : json) : json :=
  JDict [("type", JStr "Feature");
         ("geometry", JDict [("type", JStr "Point"); ("coordinates", JList [x; y])]);
         ("properties", JDict [])].

Definition coords_feature (coords : json) : json :=
  JDict [("type", JStr "Feature");
         ("geometry", JDict [("type", JStr "Polygon"); ("coordinates", coords)]);
         ("properties", JDict [])].

Definition square_ring : json :=
  JList [JList [JList [JInt 0; JInt 0]; JList [JInt 0; JInt 5]; JList [JInt 5; JInt 5];
                JList [JInt 5; JInt 0]; JList [JInt 0; JInt 0]]].

(** The request is an upload for which the random generator draws
    [layer_id]. *)
Definition draws (layer_id : string) (req : request) : bool :=
  match req with
  | UploadLayer env _ _ _ _ => String.eqb (database.generate_layer_id env) layer_id
  | _ => false
  end.

(** Sample surroundings: a clock reading, a drawn UUID, a size for every
    document, and either no failing [open] or a metadata file that cannot be
    opened for writing. *)
Definition sample_env : environment :=
  mk_env "2024-05-01T12:00:00" "3f2a9c1e-7b4d-4e2a-9a51-0c8d5e6f7a1b"
    (fun _ => 128) (fun _ => false).

Definition metadata_unwritable_env : environment :=
  mk_env "2024-05-01T12:00:00" "3f2a9c1e-7b4d-4e2a-9a51-0c8d5e6f7a1b"
    (fun _ => 128)
    (fun p => match p with MetadataFile _ => true | GeoJSONFile _ => false end).

Definition empty_store : store := mk_store ∅ ∅.

Definition empty_collection : json :=
  JDict [("type", JStr "FeatureCollection"); ("features", JList [])].

Definition point_geometry : json :=
  JDict [("type", JStr "Point"); ("coordinates", JList [JInt 10; JInt 20])].

(** A directory holding a raw-data file without its metadata file. *)
Definition orphan_store : store :=
  mk_store {["3f2a9c1e" := empty_collection]} ∅.

(** The type recorded for a feature: the [type] entry of its geometry, if it
    has both. *)
Definition geometry_type_of (feature : json) : json :=
  match feature with
  | JDict d =>
      match dict_get_or d "geometry" (JDict []) with
      | JDict g => dict_get_or g "type" JNull
      | _ => JNull
      end
  | _ => JNull
  end.

Definition first_geometry_type (features : list json) : json :=
  match features with
  | [] => JNull
  | first :: _ => geometry_type_of first
  end.

(** Every metadata file has its raw-data file beside it. *)
Definition metadata_has_raw_data (s : store) : Prop :=
  forall layer_id, path_exists s (get_metadata_path layer_id) = true ->
                   path_exists s (get_layer_path layer_id) = true.

(** The layer whose files a request may write or remove. *)
Definition target (req : request) : option string :=
  match req with
  | UploadLayer env _ _ _ _ => Some (database.generate_layer_id env)
  | DeleteLayer layer_id => Some layer_id
  | _ => None
  end.

(** A parsed upload that is none of the three accepted shapes. *)
Definition unrecognised (v : json) : bool :=
  match v with
  | JDict d =>
      negb (eq_str (dict_get_or d "type" JNull) "FeatureCollection") &&
      negb (eq_str (dict_get_or d "type" JNull) "Feature") &&
      negb (dict_has d "coordinates")
  | _ => true
  end.

(** The name an upload gives its layer: [name or filename.rsplit('.', 1)[0]]. *)
Definition layer_name_for (name : option string) (filename : string) : string :=
  match name with
  | Some n => if String.eqb n "" then rsplit_dot_head filename else n
  | None => rsplit_dot_head filename
  end.

Fixpoint has_dot (s : string) : bool :=
  match s with
  | EmptyString => false
  | String c s' => Ascii.eqb c "."%char || has_dot s'
  end.

(** The one-feature collection built around a single feature. *)
Definition feature_collection_of (feature : json) : json :=
  JDict [("type", JStr "FeatureCollection"); ("features", JList [feature])].

(** A number other than [inf], [-inf] and [nan]. *)
Definition is_finite (n : num) : bool :=
  match value n with
  | FFinite _ => true
  | _ => false
  end.

(** The document holds [inf], [-inf] or [nan] somewhere. *)
Fixpoint has_non_finite (v : json) : bool :=
  match v with
  | JFloat (FFinite _) => false
  | JFloat _ => true
  | JList l => existsb has_non_finite l
  | JDict d => existsb (fun kv => has_non_finite (snd kv)) d
  | _ => false
  end.

(** A sample of the framework's behaviour: validation accepts a geometry
    type that is a string or [None], and nothing is rendered that holds a
    number JSON cannot express. *)
Definition sample_framework : framework :=
  mk_framework
    (fun layer =>
       match md_geometry_type layer with
       | JNull | JStr _ => true
       | _ => false
       end)
    (fun layer =>
       match md_bounds layer with
       | None => true
       | Some bounds => forallb is_finite bounds
       end)
    (fun content => negb (has_non_finite content)).

(** * Properties *)

(** ** The order on numbers *)

Lemma Qltb_lt p q : Qltb p q = true <-> (p < q)%Q.
Proof. unfold Qltb, Qlt. apply Z.ltb_lt. Qed.

Lemma Qltb_ge p q : Qltb p q = false <-> (q <= p)%Q.
Proof. unfold Qltb, Qle. rewrite Z.ltb_ge. reflexivity. Qed.

Lemma Qeq_bool_false p q : Qeq_bool p q = false <-> ~ (p == q)%Q.
Proof.
  split.
  - intros H Heq. apply Qeq_bool_iff in Heq. congruence.
  - intros H. destruct (Qeq_bool p q) eqn:E; [|reflexivity].
    apply Qeq_bool_iff in E. contradiction.
Qed.

(** Case analysis on the floats in sight, with the rational comparisons
    turned into propositions for [lra]. *)
Ltac float_cases :=
  unfold float_le, float_lt, float_eq in *;
  repeat match goal with
  | f : pyfloat |- _ => destruct f
  end;
  simpl in *; try congruence; try reflexivity;
  repeat match goal with
  | H : (_ || _) = true |- _ => apply orb_true_iff in H; destruct H
  | H : Qltb _ _ = true |- _ => apply Qltb_lt in H
  | H : Qltb _ _ = false |- _ => apply Qltb_ge in H
  | H : Qeq_bool _ _ = true |- _ => apply Qeq_bool_iff in H
  | H : Qeq_bool _ _ = false |- _ => apply Qeq_bool_false in H
  end.

Ltac close_le :=
  apply orb_true_iff;
  first [ left; apply Qltb_lt; lra | right; apply Qeq_bool_iff; lra ].

Lemma float_le_trans a b c :
  float_le a b = true -> float_le b c = true -> float_le a c = true.
Proof. intros H1 H2. float_cases; close_le. Qed.

Lemma float_le_refl a : a <> FNaN -> float_le a a = true.
Proof. intros H. float_cases. close_le. Qed.

Lemma float_lt_le a b : float_lt a b = true -> float_le a b = true.
Proof. intros H. unfold float_le. rewrite H. reflexivity. Qed.

(** Without [nan] the order is total. *)
Lemma float_not_lt_le a b :
  a <> FNaN -> b <> FNaN -> float_lt b a = false -> float_le a b = true.
Proof.
  intros Ha Hb H. float_cases.
  apply orb_true_iff.
  match goal with
  | |- Qltb ?x ?y = true \/ _ => destruct (Qlt_le_dec x y) as [Hlt | Hge]
  end.
  - left. apply Qltb_lt. exact Hlt.
  - right. apply Qeq_bool_iff. lra.
Qed.

Lemma float_le_lt_trans a b c :
  float_le a b = true -> float_lt b c = true -> float_lt a c = true.
Proof. intros H1 H2. float_cases; apply Qltb_lt; lra. Qed.

Lemma float_lt_not_eq a b : float_lt a b = true -> float_eq a b = false.
Proof. intros H. float_cases. apply Qeq_bool_false. lra. Qed.

Lemma is_nan_value n : is_nan n = false <-> value n <> FNaN.
Proof. unfold is_nan. destruct (value n); split; congruence. Qed.

Lemma py_min_le_l a b :
  is_nan a = false -> is_nan b = false -> py_le (py_min a b) a = true.
Proof.
  intros Ha Hb. apply is_nan_value in Ha, Hb. unfold py_min, py_le, py_lt.
  destruct (float_lt (value b) (value a)) eqn:E.
  - apply float_lt_le, E.
  - apply float_le_refl, Ha.
Qed.

Lemma py_min_le_r a b :
  is_nan a = false -> is_nan b = false -> py_le (py_min a b) b = true.
Proof.
  intros Ha Hb. apply is_nan_value in Ha, Hb. unfold py_min, py_le, py_lt.
  destruct (float_lt (value b) (value a)) eqn:E.
  - apply float_le_refl, Hb.
  - apply float_not_lt_le; assumption.
Qed.

Lemma py_max_ge_l a b :
  is_nan a = false -> is_nan b = false -> py_le a (py_max a b) = true.
Proof.
  intros Ha Hb. apply is_nan_value in Ha, Hb. unfold py_max, py_le, py_gt.
  destruct (float_lt (value a) (value b)) eqn:E.
  - apply float_lt_le, E.
  - apply float_le_refl, Ha.
Qed.

Lemma py_max_ge_r a b :
  is_nan a = false -> is_nan b = false -> py_le b (py_max a b) = true.
Proof.
  intros Ha Hb. apply is_nan_value in Ha, Hb. unfold py_max, py_le, py_gt.
  destruct (float_lt (value a) (value b)) eqn:E.
  - apply float_le_refl, Hb.
  - apply float_not_lt_le; assumption.
Qed.

Lemma py_min_no_nan a b :
  is_nan a = false -> is_nan b = false -> is_nan (py_min a b) = false.
Proof. intros Ha Hb. unfold py_min. destruct (py_lt b a); assumption. Qed.

Lemma py_max_no_nan a b :
  is_nan a = false -> is_nan b = false -> is_nan (py_max a b) = false.
Proof. intros Ha Hb. unfold py_max. destruct (py_gt b a); assumption. Qed.

Lemma py_le_trans a b c : py_le a b = true -> py_le b c = true -> py_le a c = true.
Proof. unfold py_le. apply float_le_trans. Qed.

(** ** The walk as a fold over the pairs it reaches *)

Lemma process_coords_node c0 rest st :
  as_number c0 = None ->
  process_coords (JList (c0 :: rest)) st = process_each (c0 :: rest) st.
Proof.
  intros Hc0. simpl. rewrite Hc0.
  destruct (process_coords c0 st) as [st'|e]; [|reflexivity].
  revert st'. induction rest as [|c cs IH]; intros st'; [reflexivity|].
  simpl. destruct (process_coords c st'); [apply IH | reflexivity].
Qed.

Lemma process_coords_leaf c0 lng c1 rest st :
  as_number c0 = Some lng ->
  process_coords (JList (c0 :: c1 :: rest)) st = update st lng c1.
Proof. intros Hc0. cbn [process_coords]. rewrite Hc0. reflexivity. Qed.

Lemma absorb_all_app ps qs st :
  absorb_all (ps ++ qs) st = absorb_all qs (absorb_all ps st).
Proof. unfold absorb_all. apply fold_left_app. Qed.

Lemma process_well_formed coords :
  forall st, well_formed coords = true ->
    process_coords coords st = Ok (absorb_all (coord_pairs coords) st).
Proof.
  induction coords as [| | | | |l IH|d _] using json_nested_ind;
    intros st Hwf; try discriminate.
  destruct l as [|c0 rest]; [discriminate|].
  destruct (as_number c0) as [lng|] eqn:Hc0.
  - destruct rest as [|c1 rest].
    { cbn in Hwf. rewrite Hc0 in Hwf. discriminate. }
    rewrite (process_coords_leaf _ _ _ _ _ Hc0).
    cbn in Hwf |- *. rewrite Hc0 in Hwf |- *. unfold update.
    destruct (as_number c1) as [lat|]; [reflexivity | discriminate].
  - rewrite (process_coords_node _ _ _ Hc0).
    assert (Hall : forallb well_formed (c0 :: rest) = true).
    { cbn [well_formed] in Hwf. rewrite Hc0 in Hwf. exact Hwf. }
    assert (Hp : coord_pairs (JList (c0 :: rest)) = flat_map coord_pairs (c0 :: rest)).
    { cbn [coord_pairs]. rewrite Hc0. reflexivity. }
    rewrite Hp. clear Hp Hwf Hc0.
    revert st. induction IH as [|c cs Hc _ IHcs]; intros st; [reflexivity|].
    cbn [forallb] in Hall. apply andb_true_iff in Hall as [Hwc Hwcs].
    cbn [process_each flat_map]. rewrite (Hc st Hwc), absorb_all_app.
    apply IHcs, Hwcs.
Qed.

Lemma well_formed_truthy coords : well_formed coords = true -> truthy coords = true.
Proof. destruct coords as [| | | | |[|c l]|]; simpl; congruence. Qed.

Lemma process_feature_no_coordinates feature st :
  no_coordinates feature = true -> process_feature feature st = Ok st.
Proof.
  unfold no_coordinates, process_feature, py_get, dict_get_or.
  destruct feature as [| | | | | |d]; try discriminate.
  destruct (dict_get d "geometry") as [[| | | | | |g]|]; try discriminate.
  - destruct (dict_get g "coordinates") as [coords|]; [|reflexivity].
    intros H. apply negb_true_iff in H. rewrite H. reflexivity.
  - reflexivity.
Qed.

Lemma feature_pairs_no_coordinates feature :
  no_coordinates feature = true -> feature_pairs feature = [].
Proof.
  unfold no_coordinates, feature_pairs, coordinates_of.
  destruct feature as [| | | | | |d]; try discriminate.
  destruct (dict_get d "geometry") as [[| | | | | |g]|]; try discriminate; [|reflexivity].
  destruct (dict_get g "coordinates") as [coords|]; [|reflexivity].
  intros H. apply negb_true_iff in H. rewrite H. reflexivity.
Qed.

(** A feature with a coordinates entry hands exactly that entry to the walk. *)
Lemma process_feature_coordinates feature coords st :
  coordinates_of feature = Some coords ->
  process_feature feature st =
    if truthy coords then process_coords coords st else Ok st.
Proof.
  unfold coordinates_of, process_feature, py_get, dict_get_or.
  destruct feature as [| | | | | |d]; try discriminate.
  destruct (dict_get d "geometry") as [[| | | | | |g]|]; try discriminate.
  intros ->. reflexivity.
Qed.

Lemma process_feature_well_formed feature st :
  well_formed_feature feature = true ->
  process_feature feature st = Ok (absorb_all (feature_pairs feature) st).
Proof.
  unfold well_formed_feature. intros H.
  destruct (no_coordinates feature) eqn:Hno.
  - rewrite (feature_pairs_no_coordinates _ Hno).
    apply process_feature_no_coordinates, Hno.
  - simpl in H. destruct (coordinates_of feature) as [coords|] eqn:Hc; [|discriminate].
    rewrite (process_feature_coordinates _ _ _ Hc). unfold feature_pairs. rewrite Hc.
    rewrite (well_formed_truthy _ H). apply process_well_formed, H.
Qed.

Lemma process_features_well_formed features :
  forall st, forallb well_formed_feature features = true ->
    process_features features st = Ok (absorb_all (all_pairs features) st).
Proof.
  induction features as [|f fs IH]; intros st H; [reflexivity|].
  cbn [forallb] in H. apply andb_true_iff in H as [Hf Hfs].
  cbn [process_features]. rewrite (process_feature_well_formed _ _ Hf).
  unfold all_pairs. cbn [flat_map]. rewrite absorb_all_app. apply IH, Hfs.
Qed.

Lemma process_features_app fs1 fs2 st :
  process_features (fs1 ++ fs2) st =
    match process_features fs1 st with
    | Ok st' => process_features fs2 st'
    | Raise e => Raise e
    end.
Proof.
  revert st. induction fs1 as [|f fs1 IH]; intros st; [reflexivity|].
  cbn [app process_features]. destruct (process_feature f st); [apply IH | reflexivity].
Qed.

(** ** What the accumulators enclose *)

Lemma no_nan_initial : no_nan initial.
Proof. repeat split. Qed.

Lemma absorb_no_nan st xy :
  no_nan st -> is_nan (fst xy) = false -> is_nan (snd xy) = false ->
  no_nan (absorb st xy).
Proof.
  intros (H1 & H2 & H3 & H4) Hx Hy. unfold absorb, no_nan. cbn.
  auto using py_min_no_nan, py_max_no_nan.
Qed.

Lemma absorb_encloses_new st xy :
  no_nan st -> is_nan (fst xy) = false -> is_nan (snd xy) = false ->
  encloses (absorb st xy) xy.
Proof.
  intros (H1 & H2 & H3 & H4) Hx Hy. unfold absorb, encloses. cbn.
  auto using py_min_le_r, py_max_ge_r.
Qed.

Lemma absorb_encloses_old st xy p :
  no_nan st -> is_nan (fst xy) = false -> is_nan (snd xy) = false ->
  encloses st p -> encloses (absorb st xy) p.
Proof.
  intros (H1 & H2 & H3 & H4) Hx Hy (E1 & E2 & E3 & E4). unfold absorb, encloses. cbn.
  repeat split.
  - eapply py_le_trans; [apply py_min_le_l|]; eassumption.
  - eapply py_le_trans; [|apply py_max_ge_l]; eassumption.
  - eapply py_le_trans; [apply py_min_le_l|]; eassumption.
  - eapply py_le_trans; [|apply py_max_ge_l]; eassumption.
Qed.

Lemma pair_no_nan_spec xy :
  pair_no_nan xy = true -> is_nan (fst xy) = false /\ is_nan (snd xy) = false.
Proof.
  unfold pair_no_nan. intros H. apply andb_true_iff in H as [Hx Hy].
  split; apply negb_true_iff; assumption.
Qed.

Lemma absorb_all_encloses pairs :
  forall st, no_nan st -> forallb pair_no_nan pairs = true ->
    no_nan (absorb_all pairs st) /\
    (forall p, encloses st p -> encloses (absorb_all pairs st) p) /\
    (forall p, In p pairs -> encloses (absorb_all pairs st) p).
Proof.
  induction pairs as [|xy pairs IH]; intros st Hst Hall.
  - split; [exact Hst | split]; [auto | intros p []].
  - cbn [forallb] in Hall. apply andb_true_iff in Hall as [Hxy Hall].
    apply pair_no_nan_spec in Hxy as [Hx Hy].
    destruct (IH (absorb st xy) (absorb_no_nan _ _ Hst Hx Hy) Hall) as (Hnn & Hold & Hnew).
    unfold absorb_all in *. cbn [fold_left]. split; [exact Hnn | split].
    + intros p Hp. apply Hold, absorb_encloses_old; assumption.
    + intros p [<- | Hin].
      * apply Hold, absorb_encloses_new; assumption.
      * apply Hnew, Hin.
Qed.

(** ** Bounds of a collection *)

(** C1, as the claim states it, fails: a collection whose only coordinate
    pair has an x of [+inf] (the JSON number [1e999]) reaches a pair, yet
    [calculate_bounds] takes the untouched seed for "nothing found" and
    returns [None] instead of a box. *)
Lemma calculate_bounds_infinite_x_is_none :
  let features := [point_feature (JFloat FPosInf) (JInt 0)] in
  all_pairs features = [(NFloat FPosInf, NInt 0)] /\
  calculate_bounds features = Ok None.
Proof. split; reflexivity. Qed.

(** C1 (amended): for every list of features without malformed nodes, in
    which no coordinate is [nan] and at least one pair has an x below [+inf],
    [calculate_bounds] returns a four-element box [minX, minY, maxX, maxY]
    with [minX <= maxX] and [minY <= maxY], and every coordinate pair the walk
    reaches lies inside it. *)
Theorem calculate_bounds_encloses_pairs (features : list json) :
  forallb well_formed_feature features = true ->
  forallb pair_no_nan (all_pairs features) = true ->
  existsb x_below_inf (all_pairs features) = true ->
  exists minX minY maxX maxY,
    calculate_bounds features = Ok (Some [minX; minY; maxX; maxY]) /\
    py_le minX maxX = true /\ py_le minY maxY = true /\
    forall x y, In (x, y) (all_pairs features) ->
      py_le minX x = true /\ py_le x maxX = true /\
      py_le minY y = true /\ py_le y maxY = true.
Proof.
  intros Hwf Hnan Hsome.
  destruct (absorb_all_encloses _ initial no_nan_initial Hnan) as (_ & _ & Henc).
  apply existsb_exists in Hsome as ([x0 y0] & Hin0 & Hlt0).
  pose proof (Henc _ Hin0) as (E1 & E2 & E3 & E4). cbn [fst snd] in *.
  set (st := absorb_all (all_pairs features) initial) in *.
  exists (min_lng st), (min_lat st), (max_lng st), (max_lat st).
  split; [|split; [|split]].
  - unfold calculate_bounds. destruct features as [|f fs]; [contradiction|].
    rewrite (process_features_well_formed _ _ Hwf). fold st.
    assert (Hne : py_eq (min_lng st) inf = false).
    { apply float_lt_not_eq. eapply float_le_lt_trans; [exact E1 | exact Hlt0]. }
    rewrite Hne. reflexivity.
  - eapply py_le_trans; eassumption.
  - eapply py_le_trans; eassumption.
  - intros x y Hin. exact (Henc _ Hin).
Qed.

Lemma calculate_bounds_encloses_pairs_witness :
  exists minX minY maxX maxY,
    calculate_bounds [coords_feature square_ring] = Ok (Some [minX; minY; maxX; maxY]) /\
    py_le minX maxX = true /\ py_le minY maxY = true /\
    forall x y, In (x, y) (all_pairs [coords_feature square_ring]) ->
      py_le minX x = true /\ py_le x maxX = true /\
      py_le minY y = true /\ py_le y maxY = true.
Proof.
  apply (calculate_bounds_encloses_pairs [coords_feature square_ring]); reflexivity.
Defined.

(** C5: the code departs from the claim on a feature whose geometry is
    present but null, the GeoJSON form of a feature without geometry.  The
    default of [feature.get('geometry', {})] only stands in for a missing
    key: for a null geometry the call returns [None], and [geom.get] raises
    [AttributeError] where the claim has [calculate_bounds] return [None]. *)
Lemma calculate_bounds_null_geometry_raises :
  let features :=
    [JDict [("type", JStr "Feature"); ("geometry", JNull); ("properties", JDict [])]] in
  all_pairs features = [] /\
  calculate_bounds features = Raise AttributeError.
Proof. split; reflexivity. Qed.

(** X18: an empty feature list, and a list whose features are objects
    without a [geometry] key, or whose geometry is an object without a
    coordinates entry or with an empty one, has no bounds:
    [calculate_bounds] returns [None].  (A geometry that is null is not
    among these, see above.) *)
Theorem calculate_bounds_without_coordinates (features : list json) :
  forallb no_coordinates features = true ->
  calculate_bounds features = Ok None.
Proof.
  intros H. unfold calculate_bounds. destruct features as [|f fs]; [reflexivity|].
  assert (Hst : forall st, process_features (f :: fs) st = Ok st).
  { clear -H. induction (f :: fs) as [|g gs IH]; intros st; [reflexivity|].
    cbn [forallb] in H. apply andb_true_iff in H as [Hg Hgs].
    cbn [process_features]. rewrite (process_feature_no_coordinates _ _ Hg).
    apply IH, Hgs. }
  rewrite Hst. reflexivity.
Qed.

Lemma calculate_bounds_without_coordinates_witness :
  calculate_bounds [] = Ok None /\
  calculate_bounds
    [JDict [("type", JStr "Feature")];
     JDict [("type", JStr "Feature"); ("geometry", JDict [])];
     JDict [("type", JStr "Feature"); ("geometry", JDict [("type", JStr "Point")])];
     coords_feature (JList [])] = Ok None.
Proof.
  split; apply calculate_bounds_without_coordinates; reflexivity.
Defined.

(** A polygon ring, a point with an altitude, and a point given as
    booleans, which Python counts as the integers 1 and 0. *)
Example square_ring_bounds :
  calculate_bounds [coords_feature square_ring] =
    Ok (Some [NInt 0; NInt 0; NInt 5; NInt 5]).
Proof. reflexivity. Qed.

Example altitude_bounds :
  calculate_bounds [coords_feature (JList [JInt 7; JInt (-3); JInt 1200])] =
    Ok (Some [NInt 7; NInt (-3); NInt 7; NInt (-3)]).
Proof. reflexivity. Qed.

Example boolean_pair_bounds :
  calculate_bounds [point_feature (JBool true) (JBool false); point_feature (JInt 0) (JInt 2)] =
    Ok (Some [NInt 0; NBool false; NBool true; NInt 2]).
Proof. reflexivity. Qed.

(** A leaf with a single entry, a string and a null geometry raise. *)
Example malformed_inputs :
  calculate_bounds [coords_feature (JList [JInt 5])] = Raise IndexError /\
  calculate_bounds [coords_feature (JStr "10,20")] = Raise RecursionError /\
  calculate_bounds [JDict [("type", JStr "Feature"); ("geometry", JNull)]] =
    Raise AttributeError.
Proof. repeat split. Qed.

(** ** Malformed nodes *)

Lemma process_each_raises cs :
  forall st,
    Exists (fun c => forall st, exists e, process_coords c st = Raise e) cs ->
    exists e, process_each cs st = Raise e.
Proof.
  induction cs as [|c cs IH]; intros st Hex; inversion Hex as [? ? Hc | ? ? Hcs]; subst.
  - destruct (Hc st) as [e He]. exists e. cbn [process_each]. rewrite He. reflexivity.
  - cbn [process_each]. destruct (process_coords c st) as [st'|e].
    + apply IH, Hcs.
    + exists e. reflexivity.
Qed.

Lemma process_coords_visits_empty coords :
  visits_empty coords = true ->
  forall st, exists e, process_coords coords st = Raise e.
Proof.
  induction coords as [| | | | |l IH|d _] using json_nested_ind;
    intros Hv st; try discriminate.
  destruct l as [|c0 rest]; [exists IndexError; reflexivity|].
  cbn [visits_empty] in Hv.
  destruct (as_number c0) eqn:Hc0; [discriminate|].
  rewrite (process_coords_node _ _ _ Hc0). apply process_each_raises.
  apply existsb_exists in Hv as (c & Hin & Hc).
  apply List.Exists_exists. exists c. split; [exact Hin|].
  rewrite List.Forall_forall in IH. apply IH; assumption.
Qed.

Lemma process_features_raises features :
  forall st,
    Exists (fun f => forall st, exists e, process_feature f st = Raise e) features ->
    exists e, process_features features st = Raise e.
Proof.
  induction features as [|f fs IH]; intros st Hex;
    inversion Hex as [? ? Hf | ? ? Hfs]; subst.
  - destruct (Hf st) as [e He]. exists e. cbn [process_features]. rewrite He. reflexivity.
  - cbn [process_features]. destruct (process_feature f st) as [st'|e].
    + apply IH, Hfs.
    + exists e. reflexivity.
Qed.

(** C2, as the claim states it, fails: an empty list nested inside a
    coordinates structure is indexed by the walk and [calculate_bounds]
    raises [IndexError]. *)
Lemma calculate_bounds_nested_empty_raises :
  calculate_bounds [coords_feature (JList [JList []])] = Raise IndexError.
Proof. reflexivity. Qed.

(** C2 (amended): only an empty sequence that is the whole coordinates value
    of a feature is skipped: it leaves the accumulators alone and
    [calculate_bounds] returns what it returns without that feature.  The
    walk itself has no guard: on an empty list it raises [IndexError], so a
    feature whose non-empty coordinates hold an empty list at a position the
    walk visits makes [calculate_bounds] raise. *)
Theorem calculate_bounds_empty_sequences :
  (forall feature before after st,
     coordinates_of feature = Some (JList []) ->
     process_feature feature st = Ok st /\
     calculate_bounds (before ++ feature :: after) = calculate_bounds (before ++ after)) /\
  (forall st, process_coords (JList []) st = Raise IndexError) /\
  (forall features feature coords,
     In feature features ->
     coordinates_of feature = Some coords ->
     truthy coords = true ->
     visits_empty coords = true ->
     exists e, calculate_bounds features = Raise e).
Proof.
  split; [|split].
  - intros feature before after st Hc.
    assert (Hskip : forall st, process_feature feature st = Ok st).
    { intros st'. rewrite (process_feature_coordinates _ _ _ Hc). reflexivity. }
    split; [apply Hskip|].
    assert (Hsame : forall st,
      process_features (before ++ feature :: after) st = process_features (before ++ after) st).
    { intros st'. rewrite !process_features_app.
      destruct (process_features before st'); [|reflexivity].
      cbn [process_features]. rewrite Hskip. reflexivity. }
    unfold calculate_bounds. rewrite Hsame.
    destruct before as [|b before]; [|reflexivity].
    destruct after as [|a after]; reflexivity.
  - reflexivity.
  - intros features feature coords Hin Hc Ht Hv.
    destruct (process_features_raises features initial) as [e He].
    { apply List.Exists_exists. exists feature. split; [exact Hin|].
      intros st. rewrite (process_feature_coordinates _ _ _ Hc), Ht.
      apply process_coords_visits_empty, Hv. }
    exists e. unfold calculate_bounds. rewrite He.
    destruct features; [contradiction | reflexivity].
Qed.

Lemma calculate_bounds_empty_sequences_witness :
  (process_feature (coords_feature (JList [])) initial = Ok initial /\
   calculate_bounds
     ([point_feature (JInt 1) (JInt 2)] ++ coords_feature (JList []) :: []) =
   calculate_bounds ([point_feature (JInt 1) (JInt 2)] ++ [])) /\
  (exists e,
     calculate_bounds
       [point_feature (JInt 1) (JInt 2);
        coords_feature (JList [JList [JInt 3; JInt 4]; JList []])] = Raise e).
Proof.
  destruct calculate_bounds_empty_sequences as (Hskip & _ & Hraise). split.
  - apply Hskip. reflexivity.
  - apply (Hraise _ (coords_feature (JList [JList [JInt 3; JInt 4]; JList []]))
             (JList [JList [JInt 3; JInt 4]; JList []])).
    + simpl. right. left. reflexivity.
    + reflexivity.
    + reflexivity.
    + reflexivity.
Defined.

(** ** Extra dimensions *)

Lemma as_number_of_number n : as_number (of_number n) = Some n.
Proof. destruct n; reflexivity. Qed.

Lemma as_number_truncate_leaves c : as_number c = None -> as_number (truncate_leaves c) = None.
Proof.
  destruct c as [| | | | |[|c0 rest]|]; try discriminate; try reflexivity.
  intros _. cbn [truncate_leaves]. destruct (as_number c0); reflexivity.
Qed.

Lemma truthy_truncate_leaves c : truthy (truncate_leaves c) = truthy c.
Proof.
  destruct c as [| | | | |[|c0 rest]|]; try reflexivity.
  cbn [truncate_leaves]. destruct (as_number c0); reflexivity.
Qed.

Lemma process_coords_truncate_leaves coords :
  forall st, process_coords (truncate_leaves coords) st = process_coords coords st.
Proof.
  induction coords as [| | | | |l IH|d _] using json_nested_ind;
    intros st; try reflexivity.
  destruct l as [|c0 rest]; [reflexivity|].
  cbn [truncate_leaves]. destruct (as_number c0) as [lng|] eqn:Hc0.
  - destruct rest as [|c1 rest]; [reflexivity|].
    cbn [firstn]. rewrite !(process_coords_leaf _ _ _ _ _ Hc0). reflexivity.
  - cbn [map]. rewrite (process_coords_node _ _ _ (as_number_truncate_leaves _ Hc0)).
    rewrite (process_coords_node _ _ _ Hc0).
    change (truncate_leaves c0 :: map truncate_leaves rest)
      with (map truncate_leaves (c0 :: rest)).
    clear Hc0. revert st. induction IH as [|c cs Hc _ IHcs]; intros st; [reflexivity|].
    cbn [map process_each]. rewrite Hc.
    destruct (process_coords c st); [apply IHcs | reflexivity].
Qed.

Lemma dict_get_update d key f :
  dict_get (dict_update d key f) key = option_map f (dict_get d key).
Proof.
  induction d as [|[k v] d IH]; [reflexivity|].
  cbn [dict_update dict_get]. destruct (String.eqb k key) eqn:E.
  - cbn [dict_get]. rewrite E. reflexivity.
  - cbn [dict_get]. rewrite E. exact IH.
Qed.

Lemma process_feature_truncate feature st :
  process_feature (truncate_feature feature) st = process_feature feature st.
Proof.
  destruct feature as [| | | | | |d]; try reflexivity.
  unfold truncate_feature, process_feature, py_get, dict_get_or. rewrite dict_get_update.
  destruct (dict_get d "geometry") as [[| | | | | |g]|]; try reflexivity.
  cbn [option_map]. rewrite dict_get_update.
  destruct (dict_get g "coordinates") as [coords|]; [|reflexivity].
  cbn [option_map]. rewrite truthy_truncate_leaves, process_coords_truncate_leaves.
  reflexivity.
Qed.

Lemma py_min_inf y : is_nan y = false -> py_min inf y = y.
Proof.
  unfold py_min, py_lt, is_nan, inf.
  destruct y as [[]|z|[q| | |]]; cbn; intros H; try reflexivity; discriminate.
Qed.

Lemma py_max_neg_inf y : is_nan y = false -> py_max neg_inf y = y.
Proof.
  unfold py_max, py_gt, is_nan, neg_inf.
  destruct y as [[]|z|[q| | |]]; cbn; intros H; try reflexivity; discriminate.
Qed.

Lemma py_lt_no_nan x y : py_lt x y = true -> is_nan x = false.
Proof. unfold py_lt, is_nan. destruct (value x), (value y); cbn; congruence. Qed.

(** C6: a leaf is read through its first two entries only: the first is
    folded into the x accumulators and the second into the y accumulators,
    whatever follows them.  A feature made of one such leaf has the box
    [[x, y, x, y]].  What follows the first two entries can be replaced or
    dropped without changing what the walk does, and cutting every leaf of
    every feature down to its first two entries leaves the result of
    [calculate_bounds] as it was. *)
Theorem calculate_bounds_ignores_extra_dimensions :
  (forall (x y : num) (extra : list json) (st : accumulators),
     process_coords (JList (of_number x :: of_number y :: extra)) st =
     Ok (mk_acc (py_min (min_lng st) x) (py_min (min_lat st) y)
                (py_max (max_lng st) x) (py_max (max_lat st) y))) /\
  (forall (x y : num) (extra : list json),
     py_lt x inf = true -> is_nan y = false ->
     calculate_bounds [coords_feature (JList (of_number x :: of_number y :: extra))] =
     Ok (Some [x; y; x; y])) /\
  (forall (x : num) (y : json) (extra extra' : list json) (st : accumulators),
     process_coords (JList (of_number x :: y :: extra)) st =
     process_coords (JList (of_number x :: y :: extra')) st) /\
  (forall features : list json,
     calculate_bounds (map truncate_feature features) = calculate_bounds features).
Proof.
  assert (Hleaf : forall (x y : num) (extra : list json) (st : accumulators),
    process_coords (JList (of_number x :: of_number y :: extra)) st =
    Ok (mk_acc (py_min (min_lng st) x) (py_min (min_lat st) y)
               (py_max (max_lng st) x) (py_max (max_lat st) y))).
  { intros x y extra st.
    rewrite (process_coords_leaf _ _ _ _ _ (as_number_of_number x)).
    unfold update. rewrite as_number_of_number. reflexivity. }
  split; [exact Hleaf|]. split; [|split].
  - intros x y extra Hx Hy.
    pose proof (py_lt_no_nan _ _ Hx) as Hxn.
    unfold calculate_bounds, process_features, process_feature, coords_feature.
    cbn [py_get dict_get_or dict_get String.eqb Ascii.eqb Bool.eqb truthy].
    rewrite Hleaf. cbn [initial min_lng min_lat max_lng max_lat].
    rewrite !py_min_inf, !py_max_neg_inf by assumption.
    cbn [min_lng]. unfold py_eq. rewrite (float_lt_not_eq _ _ Hx). reflexivity.
  - intros x y extra extra' st.
    rewrite !(process_coords_leaf _ _ _ _ _ (as_number_of_number x)). reflexivity.
  - intros features.
    assert (H : forall st,
      process_features (map truncate_feature features) st = process_features features st).
    { induction features as [|f fs IH]; intros st; [reflexivity|].
      cbn [map process_features]. rewrite process_feature_truncate.
      destruct (process_feature f st); [apply IH | reflexivity]. }
    unfold calculate_bounds. rewrite H. destruct features; reflexivity.
Qed.

Lemma calculate_bounds_ignores_extra_dimensions_witness :
  calculate_bounds [coords_feature (JList [JInt 7; JInt (-3); JInt 1200; JStr "m"])] =
    Ok (Some [NInt 7; NInt (-3); NInt 7; NInt (-3)]).
Proof.
  destruct calculate_bounds_ignores_extra_dimensions as (_ & Hbox & _).
  apply (Hbox (NInt 7) (NInt (-3)) [JInt 1200; JStr "m"]); reflexivity.
Defined.

(** ** Deleting a record *)

Lemma path_exists_geojson s layer_id :
  path_exists s (get_layer_path layer_id) = false <-> geojson_files s !! layer_id = None.
Proof. cbn. destruct (geojson_files s !! layer_id); split; congruence. Qed.

Lemma path_exists_metadata s layer_id :
  path_exists s (get_metadata_path layer_id) = false <-> meta_files s !! layer_id = None.
Proof. cbn. destruct (meta_files s !! layer_id); split; congruence. Qed.

(** The directory after [delete_layer]: both files of the layer are gone,
    whichever of them existed. *)
Lemma delete_layer_removes_files s layer_id :
  fst (database.delete_layer s layer_id) =
    mk_store (delete layer_id (geojson_files s)) (delete layer_id (meta_files s)).
Proof.
  unfold database.delete_layer. destruct s as [geo meta]. cbn.
  destruct (geo !! layer_id) eqn:Hg; destruct (meta !! layer_id) eqn:Hm; cbn;
    rewrite ?Hm; cbn; rewrite ?(delete_id geo), ?(delete_id meta) by assumption;
    reflexivity.
Qed.

(** C9: [delete_layer] removes whichever of the two files of the layer
    exist, each on its own test, so that neither exists afterwards and no
    other layer is touched; it returns [True] exactly when at least one of
    the two existed, and [False], without raising, when neither did. *)
Theorem delete_layer_removes_both (s : store) (layer_id : string) :
  fst (database.delete_layer s layer_id) =
    mk_store (delete layer_id (geojson_files s)) (delete layer_id (meta_files s)) /\
  path_exists (fst (database.delete_layer s layer_id)) (get_layer_path layer_id) = false /\
  path_exists (fst (database.delete_layer s layer_id)) (get_metadata_path layer_id) = false /\
  snd (database.delete_layer s layer_id) =
    path_exists s (get_layer_path layer_id) || path_exists s (get_metadata_path layer_id).
Proof.
  rewrite delete_layer_removes_files. split; [reflexivity|]. split; [|split].
  - apply path_exists_geojson. cbn. apply lookup_delete_eq.
  - apply path_exists_metadata. cbn. apply lookup_delete_eq.
  - unfold database.delete_layer. destruct s as [geo meta]. cbn.
    destruct (geo !! layer_id) eqn:Hg; destruct (meta !! layer_id) eqn:Hm; cbn;
      rewrite ?Hm; reflexivity.
Qed.

(** ** Listing records *)

Lemma ascii_compare_refl c : Ascii.compare c c = Eq.
Proof. unfold Ascii.compare. apply N.compare_refl. Qed.

Lemma string_compare_refl s : String.compare s s = Eq.
Proof.
  induction s as [|c s IH]; [reflexivity|].
  cbn [String.compare]. rewrite ascii_compare_refl. exact IH.
Qed.

Lemma ascii_compare_lt_trans a b c :
  Ascii.compare a b = Lt -> Ascii.compare b c = Lt -> Ascii.compare a c = Lt.
Proof.
  unfold Ascii.compare. rewrite !N.compare_lt_iff. apply N.lt_trans.
Qed.

Lemma string_compare_lt_trans s1 :
  forall s2 s3,
    String.compare s1 s2 = Lt -> String.compare s2 s3 = Lt -> String.compare s1 s3 = Lt.
Proof.
  induction s1 as [|c1 s1 IH]; intros [|c2 s2] [|c3 s3]; cbn [String.compare];
    try congruence.
  destruct (Ascii.compare c1 c2) eqn:E12; try discriminate;
    destruct (Ascii.compare c2 c3) eqn:E23; try discriminate; intros H12 H23.
  - apply Ascii.compare_eq_iff in E12, E23. subst.
    rewrite ascii_compare_refl. eapply IH; eassumption.
  - apply Ascii.compare_eq_iff in E12. subst. rewrite E23. reflexivity.
  - apply Ascii.compare_eq_iff in E23. subst. rewrite E12. reflexivity.
  - rewrite (ascii_compare_lt_trans _ _ _ E12 E23). reflexivity.
Qed.

Lemma string_leb_spec s1 s2 :
  String.leb s1 s2 = true <-> String.compare s1 s2 = Lt \/ s1 = s2.
Proof.
  unfold String.leb. split.
  - destruct (String.compare s1 s2) eqn:E; try discriminate; intros _.
    + right. apply String.compare_eq_iff, E.
    + left. reflexivity.
  - intros [-> | ->]; [reflexivity|]. rewrite string_compare_refl. reflexivity.
Qed.

Lemma string_leb_trans s1 s2 s3 :
  String.leb s1 s2 = true -> String.leb s2 s3 = true -> String.leb s1 s3 = true.
Proof.
  rewrite !string_leb_spec. intros [H12 | ->] [H23 | ->]; auto.
  left. eapply string_compare_lt_trans; eassumption.
Qed.

Lemma string_ltb_leb s1 s2 : String.ltb s1 s2 = true -> String.leb s1 s2 = true.
Proof.
  unfold String.ltb, String.leb. destruct (String.compare s1 s2); simpl; congruence.
Qed.

Lemma string_not_ltb_leb s1 s2 : String.ltb s1 s2 = false -> String.leb s2 s1 = true.
Proof.
  unfold String.ltb, String.leb. rewrite (String.compare_antisym s2 s1).
  destruct (String.compare s1 s2); cbn; congruence.
Qed.

Lemma string_ltb_irrefl s : String.ltb s s = false.
Proof. unfold String.ltb. rewrite string_compare_refl. reflexivity. Qed.

Lemma newest_first_trans a b c : newest_first a b -> newest_first b c -> newest_first a c.
Proof. unfold newest_first. intros Hab Hbc. eapply string_leb_trans; eassumption. Qed.

Section InsertionSort.
Import database.

Lemma insert_desc_perm x l : Permutation (insert_desc x l) (x :: l).
Proof.
  induction l as [|y l IH]; [reflexivity|].
  cbn [insert_desc]. destruct (String.ltb (md_created_at x) (md_created_at y)).
  - rewrite IH. apply perm_swap.
  - reflexivity.
Qed.

Lemma sort_desc_perm l : Permutation (sort_desc l) l.
Proof.
  induction l as [|x l IH]; [reflexivity|].
  cbn. rewrite insert_desc_perm. apply perm_skip, IH.
Qed.

Lemma insert_desc_sorted x l :
  StronglySorted newest_first l -> StronglySorted newest_first (insert_desc x l).
Proof.
  induction 1 as [|y l Hl IH Hy].
  - repeat constructor.
  - cbn [insert_desc].
    destruct (String.ltb (md_created_at x) (md_created_at y)) eqn:E.
    + constructor; [exact IH|].
      rewrite List.Forall_forall in *. intros z Hz.
      apply (Permutation_in _ (insert_desc_perm x l)) in Hz as [<- | Hz].
      * apply string_ltb_leb, E.
      * apply Hy, Hz.
    + assert (Hxy : newest_first x y) by apply string_not_ltb_leb, E.
      constructor; [constructor; assumption|].
      constructor; [exact Hxy|].
      rewrite List.Forall_forall in *. intros z Hz.
      eapply newest_first_trans; [exact Hxy | apply Hy, Hz].
Qed.

Lemma sort_desc_sorted l : StronglySorted newest_first (sort_desc l).
Proof.
  induction l as [|x l IH]; [constructor|]. cbn. apply insert_desc_sorted, IH.
Qed.

(** Entries created at the same time keep their relative order. *)
Lemma insert_desc_stable t x l :
  List.filter (created_at_is t) (insert_desc x l) = List.filter (created_at_is t) (x :: l).
Proof.
  induction l as [|y l IH]; [reflexivity|].
  cbn [insert_desc]. destruct (String.ltb (md_created_at x) (md_created_at y)) eqn:E;
    [|reflexivity].
  cbn [List.filter] in *. rewrite IH. unfold created_at_is.
  destruct (String.eqb_spec (md_created_at x) t) as [Hx|Hx];
    destruct (String.eqb_spec (md_created_at y) t) as [Hy|Hy]; try reflexivity.
  rewrite Hx, Hy, string_ltb_irrefl in E. discriminate.
Qed.

Lemma sort_desc_stable t l :
  List.filter (created_at_is t) (sort_desc l) = List.filter (created_at_is t) l.
Proof.
  induction l as [|x l IH]; [reflexivity|].
  cbn [sort_desc foldr]. rewrite insert_desc_stable. cbn [List.filter].
  fold (sort_desc l). rewrite IH. reflexivity.
Qed.
End InsertionSort.

Lemma glob_meta_spec s md :
  In md (glob_meta s) <-> exists layer_id, meta_files s !! layer_id = Some md.
Proof.
  unfold glob_meta. rewrite <- list_elem_of_In, list_elem_of_fmap. split.
  - intros ([layer_id md'] & -> & Hin). exists layer_id.
    apply elem_of_map_to_list. exact Hin.
  - intros (layer_id & Hl). exists (layer_id, md). split; [reflexivity|].
    apply elem_of_map_to_list. exact Hl.
Qed.

(** C7: whatever the directory holds, [list_layers] returns one entry per
    metadata file, the entries being exactly the stored metadata, ordered by
    [created_at] from the most recent to the oldest; entries with the same
    [created_at] stay in the order in which the directory listed them. *)
Theorem list_layers_newest_first (s : store) :
  Permutation (database.list_layers s) (glob_meta s) /\
  length (database.list_layers s) = size (meta_files s) /\
  (forall md, In md (database.list_layers s) <->
              exists layer_id, meta_files s !! layer_id = Some md) /\
  StronglySorted newest_first (database.list_layers s) /\
  (forall t, List.filter (created_at_is t) (database.list_layers s) =
             List.filter (created_at_is t) (glob_meta s)).
Proof.
  unfold database.list_layers.
  pose proof (sort_desc_perm (glob_meta s)) as Hperm.
  split; [exact Hperm|]. split; [|split; [|split]].
  - rewrite (Permutation_length Hperm). unfold glob_meta.
    rewrite length_fmap. apply length_map_to_list.
  - intros md. rewrite <- glob_meta_spec. split; apply Permutation_in;
      [exact Hperm | symmetry; exact Hperm].
  - apply sort_desc_sorted.
  - intros t. apply sort_desc_stable.
Qed.

(** ** Writing a record *)

(** What [save_layer] leaves behind, by the outcome of its steps. *)
Lemma save_layer_cases env layer_id name geojson description s :
  database.save_layer env layer_id name geojson description s =
    if open_fails env (get_layer_path layer_id) then (s, Raise OSError)
    else
      let s1 := mk_store (<[layer_id := geojson]> (geojson_files s)) (meta_files s) in
      match database.compute_metadata env layer_id name geojson description with
      | Raise e => (s1, Raise e)
      | Ok md =>
          if open_fails env (get_metadata_path layer_id) then (s1, Raise OSError)
          else (mk_store (geojson_files s1) (<[layer_id := md]> (meta_files s1)), Ok md)
      end.
Proof.
  unfold database.save_layer, bind, write_geojson, write_metadata, lift, ret.
  destruct (open_fails env (get_layer_path layer_id)); [reflexivity|].
  destruct (database.compute_metadata env layer_id name geojson description);
    [|reflexivity].
  cbn. destruct (open_fails env (get_metadata_path layer_id)); reflexivity.
Qed.

(** [save_layer] touches no file of another layer. *)
Lemma save_layer_frame env layer_id name geojson description s other :
  other <> layer_id ->
  geojson_files (fst (database.save_layer env layer_id name geojson description s)) !! other
    = geojson_files s !! other /\
  meta_files (fst (database.save_layer env layer_id name geojson description s)) !! other
    = meta_files s !! other.
Proof.
  intros Hne. rewrite save_layer_cases.
  destruct (open_fails env (get_layer_path layer_id)); [split; reflexivity|].
  cbn zeta.
  destruct (database.compute_metadata env layer_id name geojson description); cbn.
  - destruct (open_fails env (get_metadata_path layer_id)); cbn;
      rewrite ?lookup_insert_ne by congruence; split; reflexivity.
  - rewrite lookup_insert_ne by congruence. split; reflexivity.
Qed.

(** Neither does an upload, whose only writes are those of [save_layer] for
    the id it draws. *)
Lemma upload_layer_frame env filename content name description s other :
  other <> database.generate_layer_id env ->
  geojson_files (fst (layers.upload_layer env filename content name description s)) !! other
    = geojson_files s !! other /\
  meta_files (fst (layers.upload_layer env filename content name description s)) !! other
    = meta_files s !! other.
Proof.
  intros Hne. unfold layers.upload_layer.
  destruct (negb (endswith_any filename [".geojson"; ".json"])); [split; reflexivity|].
  unfold try_except, bind, lift, ret.
  destruct (loads_decode content) as [doc|e]; [|split; reflexivity].
  destruct (layers.wrap_geojson doc) as [collection|e]; [|split; reflexivity].
  match goal with
  | |- context [database.save_layer ?e ?i ?n ?g ?d s] =>
      pose proof (save_layer_frame e i n g d s other Hne) as Hframe;
      destruct (database.save_layer e i n g d s) as [s' [md|err]]
  end; exact Hframe.
Qed.




(** ** Uploading *)

(** C4: an uploaded object whose [type] is neither ["FeatureCollection"] nor
    ["Feature"] and which has a ["coordinates"] key is wrapped as a feature
    collection with exactly one feature, whose geometry is the uploaded
    object and whose properties are empty, and that collection is what is
    written as raw data.  Uploading the point [10, 20] stores a record with
    [geometry_type = "Point"], [feature_count = 1] and bounds
    [[10, 20, 10, 20]]. *)
Theorem upload_bare_geometry :
  (forall (env : environment) (filename : string) (d : list (string * json))
          (name description : option string) (s : store),
     endswith_any filename [".geojson"; ".json"] = true ->
     eq_str (dict_get_or d "type" JNull) "FeatureCollection" = false ->
     eq_str (dict_get_or d "type" JNull) "Feature" = false ->
     dict_has d "coordinates" = true ->
     open_fails env (get_layer_path (database.generate_layer_id env)) = false ->
     layers.wrap_geojson (JDict d) = Ok (geometry_collection (JDict d)) /\
     database.get_layer_geojson
       (fst (layers.upload_layer env filename (JsonText (JDict d)) name description s))
       (database.generate_layer_id env) = Some (geometry_collection (JDict d))) /\
  (forall (env : environment) (filename : string) (name description : option string)
          (s : store),
     endswith_any filename [".geojson"; ".json"] = true ->
     (forall p, open_fails env p = false) ->
     let after :=
       layers.upload_layer env filename (JsonText point_geometry) name description s in
     exists (response : UploadResponse) (md : metadata),
       snd after = Ok response /\ success response = true /\
       up_layer_id response = database.generate_layer_id env /\
       up_feature_count response = 1 /\
       database.get_layer (fst after) (database.generate_layer_id env) = Some md /\
       md_id md = database.generate_layer_id env /\
       md_geometry_type md = JStr "Point" /\
       md_feature_count md = 1 /\
       md_bounds md = Some [NInt 10; NInt 20; NInt 10; NInt 20] /\
       database.get_layer_geojson (fst after) (database.generate_layer_id env) =
         Some (geometry_collection point_geometry)).
Proof.
  split.
  - intros env filename d name description s Hsuffix Hfc Hfeature Hcoords Hopen.
    assert (Hwrap : layers.wrap_geojson (JDict d) = Ok (geometry_collection (JDict d))).
    { unfold layers.wrap_geojson. rewrite Hfc, Hfeature, Hcoords. reflexivity. }
    split; [exact Hwrap|].
    unfold layers.upload_layer. rewrite Hsuffix. cbn [negb].
    unfold try_except, bind, lift, ret, loads_decode. rewrite Hwrap.
    rewrite save_layer_cases, Hopen. cbn zeta.
    match goal with
    | |- context [database.compute_metadata ?e ?i ?n ?g ?ds] =>
        destruct (database.compute_metadata e i n g ds) as [md|err]
    end.
    + destruct (open_fails env (get_metadata_path (database.generate_layer_id env)));
        unfold database.get_layer_geojson; cbn; rewrite lookup_insert_eq; reflexivity.
    + unfold database.get_layer_geojson; cbn. rewrite lookup_insert_eq. reflexivity.
  - intros env filename name description s Hsuffix Hopen after. subst after.
    unfold layers.upload_layer. rewrite Hsuffix. cbn [negb].
    unfold try_except, bind, lift, ret, loads_decode.
    change (layers.wrap_geojson point_geometry)
      with (@Ok json (geometry_collection point_geometry)).
    cbv beta iota. rewrite save_layer_cases, !Hopen. cbn.
    eexists _, _. unfold database.get_layer, database.get_layer_geojson. cbn.
    rewrite !lookup_insert_eq. repeat split.
Qed.

Lemma upload_bare_geometry_witness :
  layers.wrap_geojson point_geometry = Ok (geometry_collection point_geometry) /\
  database.get_layer_geojson
    (fst (layers.upload_layer sample_env "point.geojson" (JsonText point_geometry)
            None None empty_store))
    "3f2a9c1e" = Some (geometry_collection point_geometry).
Proof.
  destruct upload_bare_geometry as [Hwrap _].
  apply (Hwrap sample_env "point.geojson"
           [("type", JStr "Point"); ("coordinates", JList [JInt 10; JInt 20])]
           None None empty_store); reflexivity.
Defined.

(** C8: the code departs from the claim on bytes that are not UTF-8 text.
    [content.decode('utf-8')] raises [UnicodeDecodeError], which is not the
    [JSONDecodeError] that the first [except] clause answers with 400: it
    falls to [except Exception] and the upload is answered with status 500.
    Text that is not JSON takes the first clause and is answered with 400;
    in both cases the directory is unchanged. *)
Lemma upload_undecodable_bytes_is_500 :
  layers.upload_layer sample_env "layer.json" NotUtf8 None None empty_store =
    (empty_store, Raise (HTTPException 500 UploadFailed)) /\
  layers.upload_layer sample_env "layer.json" NotJson None None empty_store =
    (empty_store, Raise (HTTPException 400 InvalidJSON)).
Proof. split; reflexivity. Qed.

(** ** Orphaned raw data *)

Lemma get_layer_lookup s layer_id : database.get_layer s layer_id = meta_files s !! layer_id.
Proof.
  unfold database.get_layer. cbn. destruct (meta_files s !! layer_id); reflexivity.
Qed.

(** A request that is not an upload drawing [layer_id] leaves the two files
    of an orphaned [layer_id] as they are. *)
Lemma handle_keeps_orphan fw s req layer_id :
  draws layer_id req = false ->
  meta_files s !! layer_id = None ->
  geojson_files (fst (handle fw s req)) !! layer_id = geojson_files s !! layer_id /\
  meta_files (fst (handle fw s req)) !! layer_id = None.
Proof.
  intros Hdraw Hmeta.
  destruct req as [|other|other|env filename content name description|other];
    cbn [handle fst]; try (split; [reflexivity | exact Hmeta]).
  - cbn [draws] in Hdraw. apply String.eqb_neq in Hdraw.
    destruct (upload_layer_frame env filename content name description s layer_id)
      as [Hg Hm]; [congruence|].
    destruct (layers.upload_layer env filename content name description s) as [s' r].
    cbn [fst] in *. rewrite Hm. split; assumption.
  - unfold layers.delete_layer. rewrite get_layer_lookup.
    destruct (meta_files s !! other) as [md|] eqn:Hother;
      [|split; [reflexivity | exact Hmeta]].
    assert (Hne : other <> layer_id) by congruence.
    pose proof (delete_layer_removes_files s other) as Hdel.
    destruct (database.delete_layer s other) as [s' deleted]. cbn [fst] in *.
    rewrite Hdel. cbn. rewrite !lookup_delete_ne by exact Hne.
    split; [reflexivity | exact Hmeta].
Qed.

(** C10, as the claim states it, fails on two counts.  The raw-data
    endpoint reads the raw-data file only, so it serves a layer that has no
    metadata: existence is not decided by the metadata file alone.  And the
    orphaned file can be removed through the interface: an upload that
    draws the same id gives the layer metadata, after which DELETE removes
    both files. *)
Lemma orphaned_raw_data_served_and_removed :
  orphaned orphan_store "3f2a9c1e" /\
  layers.get_layer_geojson sample_framework orphan_store "3f2a9c1e" =
    Ok empty_collection /\
  path_exists
    (serve_all sample_framework orphan_store
       [UploadLayer sample_env "a.json" (JsonText point_geometry) None None;
        DeleteLayer "3f2a9c1e"])
    (get_layer_path "3f2a9c1e") = false.
Proof. vm_compute. repeat split. Qed.

(** C10 (amended): for a layer whose raw-data file exists without its
    metadata file, [get_layer] finds nothing, the metadata endpoint answers
    404, and the DELETE endpoint answers 404 with the directory unchanged,
    so without calling the store's [delete_layer].  The raw-data endpoint
    does not look at the metadata and serves the orphaned document.  The
    raw-data file survives every sequence of requests in which no upload
    draws the same id again. *)
Theorem orphaned_raw_data_stays (fw : framework) (s : store) (layer_id : string) :
  orphaned s layer_id ->
  database.get_layer s layer_id = None /\
  layers.get_layer fw s layer_id = Raise (HTTPException 404 (LayerNotFound layer_id)) /\
  layers.delete_layer s layer_id = (s, Raise (HTTPException 404 (LayerNotFound layer_id))) /\
  (exists doc,
     database.get_layer_geojson s layer_id = Some doc /\
     (truthy doc = true -> renders_json fw doc = true ->
      layers.get_layer_geojson fw s layer_id = Ok doc)) /\
  forall reqs : list request,
    forallb (fun req => negb (draws layer_id req)) reqs = true ->
    orphaned (serve_all fw s reqs) layer_id /\
    geojson_files (serve_all fw s reqs) !! layer_id = geojson_files s !! layer_id.
Proof.
  intros [Hraw Hmeta].
  assert (Hget : database.get_layer s layer_id = None).
  { rewrite get_layer_lookup. apply path_exists_metadata, Hmeta. }
  split; [exact Hget|].
  split; [unfold layers.get_layer; rewrite Hget; reflexivity|].
  split; [unfold layers.delete_layer; rewrite Hget; reflexivity|].
  split.
  { unfold layers.get_layer_geojson, database.get_layer_geojson. rewrite Hraw.
    cbn in Hraw. destruct (geojson_files s !! layer_id) as [doc|]; [|discriminate].
    exists doc. split; [reflexivity|]. intros -> ->. reflexivity. }
  intros reqs. revert s Hraw Hmeta Hget.
  induction reqs as [|req reqs IH]; intros s Hraw Hmeta _ Hreqs.
  - split; [split; assumption | reflexivity].
  - cbn [forallb] in Hreqs. apply andb_true_iff in Hreqs as [Hreq Hreqs].
    apply negb_true_iff in Hreq. apply path_exists_metadata in Hmeta.
    destruct (handle_keeps_orphan fw s req layer_id Hreq Hmeta) as [Hg Hm].
    cbn [serve_all]. rewrite <- Hg. apply IH.
    + cbn. rewrite Hg. exact Hraw.
    + apply path_exists_metadata, Hm.
    + rewrite get_layer_lookup. exact Hm.
    + exact Hreqs.
Qed.

Lemma orphaned_raw_data_stays_witness :
  orphaned orphan_store "3f2a9c1e" /\
  database.get_layer orphan_store "3f2a9c1e" = None /\
  layers.get_layer sample_framework orphan_store "3f2a9c1e" =
    Raise (HTTPException 404 (LayerNotFound "3f2a9c1e")) /\
  layers.delete_layer orphan_store "3f2a9c1e" =
    (orphan_store, Raise (HTTPException 404 (LayerNotFound "3f2a9c1e"))) /\
  (exists doc,
     database.get_layer_geojson orphan_store "3f2a9c1e" = Some doc /\
     (truthy doc = true -> renders_json sample_framework doc = true ->
      layers.get_layer_geojson sample_framework orphan_store "3f2a9c1e" = Ok doc)) /\
  forall reqs : list request,
    forallb (fun req => negb (draws "3f2a9c1e" req)) reqs = true ->
    orphaned (serve_all sample_framework orphan_store reqs) "3f2a9c1e" /\
    geojson_files (serve_all sample_framework orphan_store reqs) !! "3f2a9c1e" =
      geojson_files orphan_store !! "3f2a9c1e".
Proof.
  assert (H : orphaned orphan_store "3f2a9c1e") by (split; vm_compute; reflexivity).
  split; [exact H|].
  apply (orphaned_raw_data_stays sample_framework orphan_store "3f2a9c1e" H).
Defined.

(** * Further properties *)

(** ** When the bounds computation returns *)

Lemma process_coords_ill_formed coords :
  well_formed coords = false ->
  forall st, exists e, process_coords coords st = Raise e.
Proof.
  induction coords as [| | | |s|l IH|d _] using json_nested_ind; intros Hwf st;
    try (eexists; reflexivity).
  - cbn [process_coords]. destruct (String.eqb s ""); eexists; reflexivity.
  - destruct l as [|c0 rest]; [eexists; reflexivity|].
    destruct (as_number c0) as [lng|] eqn:Hc0.
    + destruct rest as [|c1 rest].
      { cbn [process_coords]. rewrite Hc0. eexists; reflexivity. }
      rewrite (process_coords_leaf _ _ _ _ _ Hc0). unfold update.
      cbn [well_formed] in Hwf. rewrite Hc0 in Hwf.
      destruct (as_number c1); [discriminate | eexists; reflexivity].
    + rewrite (process_coords_node _ _ _ Hc0). apply process_each_raises.
      cbn [well_formed] in Hwf. rewrite Hc0 in Hwf. clear Hc0.
      induction IH as [|c cs Hc _ IHcs]; [discriminate|].
      cbn [forallb] in Hwf. destruct (well_formed c) eqn:Hwc.
      * apply List.Exists_cons_tl, IHcs, Hwf.
      * apply List.Exists_cons_hd, Hc. reflexivity.
Qed.

Lemma process_feature_ill_formed feature :
  well_formed_feature feature = false ->
  forall st, exists e, process_feature feature st = Raise e.
Proof.
  unfold well_formed_feature, no_coordinates, coordinates_of, process_feature,
    py_get, dict_get_or.
  intros Hwf st.
  destruct feature as [| | | | | |d]; try (eexists; reflexivity).
  destruct (dict_get d "geometry") as [[| | | | | |g]|];
    try (eexists; reflexivity); try discriminate.
  destruct (dict_get g "coordinates") as [coords|]; [|discriminate].
  destruct (truthy coords); [|discriminate].
  cbn in Hwf. apply process_coords_ill_formed, Hwf.
Qed.

Lemma calculate_bounds_well_formed_returns features :
  forallb well_formed_feature features = true ->
  exists bounds, calculate_bounds features = Ok bounds.
Proof.
  intros Hwf. unfold calculate_bounds. destruct features as [|f fs]; [eauto|].
  rewrite (process_features_well_formed _ _ Hwf).
  match goal with |- context [if ?b then _ else _] => destruct b end; eauto.
Qed.

Lemma process_features_ill_formed features :
  forallb well_formed_feature features = false ->
  forall st, exists e, process_features features st = Raise e.
Proof.
  intros Hwf st. apply process_features_raises.
  induction features as [|f fs IH]; [discriminate|].
  cbn [forallb] in Hwf. destruct (well_formed_feature f) eqn:Hf.
  - apply List.Exists_cons_tl, IH, Hwf.
  - apply List.Exists_cons_hd, process_feature_ill_formed, Hf.
Qed.

Lemma calculate_bounds_ill_formed_raises features :
  forallb well_formed_feature features = false ->
  exists e, calculate_bounds features = Raise e.
Proof.
  intros Hwf. destruct (process_features_ill_formed features Hwf initial) as [e He].
  exists e. unfold calculate_bounds. rewrite He.
  destruct features; [discriminate | reflexivity].
Qed.

(** X1: [calculate_bounds] returns, with a box or with [None], exactly for
    the feature lists without malformed nodes; on every other list it
    raises. *)
Theorem calculate_bounds_returns_iff_well_formed (features : list json) :
  (exists bounds, calculate_bounds features = Ok bounds) <->
  forallb well_formed_feature features = true.
Proof.
  split.
  - intros [bounds Hb].
    destruct (forallb well_formed_feature features) eqn:Hwf; [reflexivity|].
    destruct (calculate_bounds_ill_formed_raises features Hwf) as [e He].
    congruence.
  - apply calculate_bounds_well_formed_returns.
Qed.

(** ** When the result is "no bounds" *)

Lemma min_lng_absorb_all pairs :
  forall st,
    py_eq (min_lng (absorb_all pairs st)) inf =
    py_eq (min_lng st) inf && negb (existsb x_below_inf pairs).
Proof.
  induction pairs as [|[x y] pairs IH]; intros st.
  - cbn. rewrite andb_true_r. reflexivity.
  - unfold absorb_all in *. cbn [fold_left existsb]. rewrite IH.
    rewrite negb_orb, andb_assoc. f_equal.
    unfold absorb, x_below_inf, py_min, py_eq, py_lt, inf. cbn [min_lng fst value].
    destruct (float_lt (value x) (value (min_lng st))) eqn:E;
      destruct (value x), (value (min_lng st)); cbn in *; congruence.
Qed.

(** X2: on a feature list without malformed nodes the result is [None]
    exactly when no reached pair has an x below [+inf]: when there is no pair
    at all, or when every x is [+inf] or [nan]. *)
Theorem calculate_bounds_none_iff (features : list json) :
  forallb well_formed_feature features = true ->
  (calculate_bounds features = Ok None <->
   existsb x_below_inf (all_pairs features) = false).
Proof.
  intros Hwf. unfold calculate_bounds. destruct features as [|f fs].
  - split; reflexivity.
  - rewrite (process_features_well_formed _ _ Hwf), min_lng_absorb_all.
    cbn [initial min_lng]. change (py_eq inf inf) with true. cbn [andb].
    destruct (existsb x_below_inf (all_pairs (f :: fs))); cbn [negb];
      split; congruence.
Qed.

Lemma calculate_bounds_none_iff_witness :
  calculate_bounds [point_feature (JFloat FNaN) (JInt 3)] = Ok None <->
  existsb x_below_inf (all_pairs [point_feature (JFloat FNaN) (JInt 3)]) = false.
Proof.
  apply (calculate_bounds_none_iff [point_feature (JFloat FNaN) (JInt 3)]).
  reflexivity.
Defined.

(** ** The box is the smallest one *)

Lemma value_pos_inf n : value n = FPosInf -> n = inf.
Proof. unfold inf. destruct n as [[]| |[]]; cbn; congruence. Qed.

Lemma value_neg_inf n : value n = FNegInf -> n = neg_inf.
Proof. unfold neg_inf. destruct n as [[]| |[]]; cbn; congruence. Qed.

Lemma py_le_inf_l n : py_le inf n = true -> n = inf.
Proof.
  unfold py_le, float_le, inf. cbn [value]. intros H. apply value_pos_inf.
  destruct (value n); cbn in H; congruence.
Qed.

Lemma py_le_neg_inf_r n : py_le n neg_inf = true -> n = neg_inf.
Proof.
  unfold py_le, float_le, neg_inf. cbn [value]. intros H. apply value_neg_inf.
  destruct (value n); cbn in H; congruence.
Qed.

(** Each accumulator holds its seed or a coordinate that was absorbed. *)
Lemma absorb_all_attained pairs :
  forall st,
    (min_lng (absorb_all pairs st) = min_lng st \/
     In (min_lng (absorb_all pairs st)) (map fst pairs)) /\
    (min_lat (absorb_all pairs st) = min_lat st \/
     In (min_lat (absorb_all pairs st)) (map snd pairs)) /\
    (max_lng (absorb_all pairs st) = max_lng st \/
     In (max_lng (absorb_all pairs st)) (map fst pairs)) /\
    (max_lat (absorb_all pairs st) = max_lat st \/
     In (max_lat (absorb_all pairs st)) (map snd pairs)).
Proof.
  induction pairs as [|[x y] pairs IH]; intros st; [cbn; auto|].
  unfold absorb_all in *. cbn [fold_left map In fst snd].
  destruct (IH (absorb st (x, y))) as (H1 & H2 & H3 & H4).
  set (st' := fold_left absorb pairs (absorb st (x, y))) in *.
  repeat split.
  - destruct H1 as [-> | H1]; [|auto]. cbn. unfold py_min.
    destruct (py_lt x (min_lng st)); auto.
  - destruct H2 as [-> | H2]; [|auto]. cbn. unfold py_min.
    destruct (py_lt y (min_lat st)); auto.
  - destruct H3 as [-> | H3]; [|auto]. cbn. unfold py_max.
    destruct (py_gt x (max_lng st)); auto.
  - destruct H4 as [-> | H4]; [|auto]. cbn. unfold py_max.
    destruct (py_gt y (max_lat st)); auto.
Qed.

(** X3: under the conditions in which a box is returned (no malformed node,
    no [nan], some x below [+inf]), each of the four bounds is a coordinate
    of a reached pair: [minX] and [maxX] are x values of the input, [minY]
    and [maxY] are y values, so no smaller box encloses the pairs. *)
Theorem calculate_bounds_box_is_attained (features : list json) :
  forallb well_formed_feature features = true ->
  forallb pair_no_nan (all_pairs features) = true ->
  existsb x_below_inf (all_pairs features) = true ->
  exists minX minY maxX maxY,
    calculate_bounds features = Ok (Some [minX; minY; maxX; maxY]) /\
    In minX (map fst (all_pairs features)) /\
    In minY (map snd (all_pairs features)) /\
    In maxX (map fst (all_pairs features)) /\
    In maxY (map snd (all_pairs features)).
Proof.
  intros Hwf Hnan Hsome.
  destruct (absorb_all_encloses _ initial no_nan_initial Hnan) as (_ & _ & Henc).
  destruct (absorb_all_attained (all_pairs features) initial) as (A1 & A2 & A3 & A4).
  pose proof (min_lng_absorb_all (all_pairs features) initial) as Hmin.
  rewrite Hsome in Hmin. cbn [negb] in Hmin. rewrite andb_false_r in Hmin.
  apply existsb_exists in Hsome as ([x0 y0] & Hin0 & _).
  pose proof (Henc _ Hin0) as (E1 & E2 & E3 & E4). cbn [fst snd] in *.
  assert (Hx0 : In x0 (map fst (all_pairs features))) by (apply (in_map fst _ _ Hin0)).
  assert (Hy0 : In y0 (map snd (all_pairs features))) by (apply (in_map snd _ _ Hin0)).
  set (st := absorb_all (all_pairs features) initial) in *.
  exists (min_lng st), (min_lat st), (max_lng st), (max_lat st).
  split; [|split; [|split; [|split]]].
  - unfold calculate_bounds. destruct features as [|f fs]; [contradiction|].
    rewrite (process_features_well_formed _ _ Hwf). fold st. rewrite Hmin. reflexivity.
  - destruct A1 as [A1 | A1]; [|exact A1].
    rewrite A1 in Hmin. discriminate.
  - destruct A2 as [A2 | A2]; [|exact A2].
    rewrite A2 in *. cbn [initial min_lat] in *.
    rewrite <- (py_le_inf_l _ E3). exact Hy0.
  - destruct A3 as [A3 | A3]; [|exact A3].
    rewrite A3 in *. cbn [initial max_lng] in *.
    rewrite <- (py_le_neg_inf_r _ E2). exact Hx0.
  - destruct A4 as [A4 | A4]; [|exact A4].
    rewrite A4 in *. cbn [initial max_lat] in *.
    rewrite <- (py_le_neg_inf_r _ E4). exact Hy0.
Qed.

Lemma calculate_bounds_box_is_attained_witness :
  exists minX minY maxX maxY,
    calculate_bounds [coords_feature square_ring] = Ok (Some [minX; minY; maxX; maxY]) /\
    In minX (map fst (all_pairs [coords_feature square_ring])) /\
    In minY (map snd (all_pairs [coords_feature square_ring])) /\
    In maxX (map fst (all_pairs [coords_feature square_ring])) /\
    In maxY (map snd (all_pairs [coords_feature square_ring])).
Proof.
  apply (calculate_bounds_box_is_attained [coords_feature square_ring]); reflexivity.
Defined.

(** ** Creating a record and reading it back *)

Lemma get_layer_geojson_lookup s layer_id :
  database.get_layer_geojson s layer_id = geojson_files s !! layer_id.
Proof.
  unfold database.get_layer_geojson. cbn.
  destruct (geojson_files s !! layer_id); reflexivity.
Qed.

Lemma save_layer_success env layer_id name geojson description md s :
  open_fails env (get_layer_path layer_id) = false ->
  database.compute_metadata env layer_id name geojson description = Ok md ->
  open_fails env (get_metadata_path layer_id) = false ->
  database.save_layer env layer_id name geojson description s =
    (mk_store (<[layer_id := geojson]> (geojson_files s))
              (<[layer_id := md]> (meta_files s)), Ok md).
Proof.
  intros Hgeo Hmd Hmeta. rewrite save_layer_cases, Hgeo, Hmd. cbn zeta.
  rewrite Hmeta. reflexivity.
Qed.

(** X4: when neither write fails and the metadata can be computed,
    [save_layer] returns that metadata, [get_layer] reads the same metadata
    back, [get_layer_geojson] reads back the document that was passed in,
    the record shows in [list_layers], and the files of every other layer
    read as before. *)
Theorem save_layer_then_read
    (env : environment) (layer_id name : string) (geojson : json)
    (description : option string) (md : metadata) (s : store) :
  open_fails env (get_layer_path layer_id) = false ->
  database.compute_metadata env layer_id name geojson description = Ok md ->
  open_fails env (get_metadata_path layer_id) = false ->
  let after := database.save_layer env layer_id name geojson description s in
  snd after = Ok md /\
  database.get_layer (fst after) layer_id = Some md /\
  database.get_layer_geojson (fst after) layer_id = Some geojson /\
  In md (database.list_layers (fst after)) /\
  forall other, other <> layer_id ->
    database.get_layer (fst after) other = database.get_layer s other /\
    database.get_layer_geojson (fst after) other = database.get_layer_geojson s other.
Proof.
  intros Hgeo Hmd Hmeta after. subst after.
  rewrite (save_layer_success _ _ _ _ _ _ _ Hgeo Hmd Hmeta). cbn [fst snd].
  rewrite !get_layer_lookup, !get_layer_geojson_lookup. cbn.
  rewrite !lookup_insert_eq. split; [reflexivity|]. split; [reflexivity|].
  split; [reflexivity|]. split.
  - unfold database.list_layers.
    apply (Permutation_in _ (Permutation_sym (sort_desc_perm _))).
    apply glob_meta_spec. exists layer_id. cbn. apply lookup_insert_eq.
  - intros other Hne. rewrite !get_layer_lookup, !get_layer_geojson_lookup. cbn.
    rewrite !lookup_insert_ne by congruence. split; reflexivity.
Qed.

Lemma save_layer_then_read_witness :
  let after :=
    database.save_layer sample_env "3f2a9c1e" "roads"
      (geometry_collection point_geometry) None empty_store in
  exists md,
    snd after = Ok md /\
    database.get_layer (fst after) "3f2a9c1e" = Some md /\
    database.get_layer_geojson (fst after) "3f2a9c1e" =
      Some (geometry_collection point_geometry).
Proof.
  eexists.
  pose proof (save_layer_then_read sample_env "3f2a9c1e" "roads"
                (geometry_collection point_geometry) None _ empty_store
                eq_refl eq_refl eq_refl) as (H1 & H2 & H3 & _).
  split; [exact H1|]. split; [exact H2 | exact H3].
Defined.

(** ** The metadata of a collection *)

Lemma well_formed_feature_geometry feature :
  well_formed_feature feature = true ->
  match py_get feature "geometry" (JDict []) with
  | Raise e => Raise e
  | Ok first_geom => py_get first_geom "type" JNull
  end = Ok (geometry_type_of feature).
Proof.
  unfold well_formed_feature, no_coordinates, coordinates_of, geometry_type_of,
    py_get, dict_get_or.
  destruct feature as [| | | | | |d]; try discriminate.
  destruct (dict_get d "geometry") as [[| | | | | |g]|]; try discriminate;
    reflexivity.
Qed.

Lemma compute_metadata_well_formed env layer_id name d description features bounds :
  dict_get_or d "features" (JList []) = JList features ->
  forallb well_formed_feature features = true ->
  calculate_bounds features = Ok bounds ->
  database.compute_metadata env layer_id name (JDict d) description =
    Ok (mk_metadata layer_id name description (Z.of_nat (length features))
          (first_geometry_type features) bounds (now_isoformat env)
          (getsize env (JDict d))).
Proof.
  intros Hfeatures Hwf Hb. unfold database.compute_metadata.
  change (py_get (JDict d) "features" (JList []))
    with (Ok (dict_get_or d "features" (JList []))).
  rewrite Hfeatures. cbn [py_items].
  rewrite Hb. destruct features as [|first rest]; [reflexivity|].
  cbn [truthy py_index0 first_geometry_type]. cbn [forallb] in Hwf.
  apply andb_true_iff in Hwf as [Hfirst _].
  rewrite (well_formed_feature_geometry _ Hfirst). reflexivity.
Qed.

(** X5: for a document whose [features] entry is a list of features without
    malformed nodes (or is missing, which counts as the empty list), the
    metadata is computed without raising: [feature_count] is the length of
    the list, [geometry_type] is the geometry type of the first feature or
    [None] for an empty list, [bounds] is what [calculate_bounds] returns
    for the list, and id, name and description are the arguments. *)
Theorem compute_metadata_of_collection
    (env : environment) (layer_id name : string) (d : list (string * json))
    (description : option string) (features : list json) :
  dict_get_or d "features" (JList []) = JList features ->
  forallb well_formed_feature features = true ->
  exists bounds,
    calculate_bounds features = Ok bounds /\
    database.compute_metadata env layer_id name (JDict d) description =
      Ok (mk_metadata layer_id name description (Z.of_nat (length features))
            (first_geometry_type features) bounds (now_isoformat env)
            (getsize env (JDict d))).
Proof.
  intros Hfeatures Hwf.
  destruct (calculate_bounds_well_formed_returns features Hwf) as [bounds Hb].
  exists bounds. split; [exact Hb|].
  apply compute_metadata_well_formed; assumption.
Qed.

Lemma compute_metadata_of_collection_witness :
  exists bounds,
    calculate_bounds [coords_feature square_ring; point_feature (JInt 9) (JInt 1)] =
      Ok bounds /\
    database.compute_metadata sample_env "3f2a9c1e" "blocks"
      (JDict [("type", JStr "FeatureCollection");
              ("features",
               JList [coords_feature square_ring; point_feature (JInt 9) (JInt 1)])])
      (Some "city blocks") =
      Ok (mk_metadata "3f2a9c1e" "blocks" (Some "city blocks") 2 (JStr "Polygon")
            bounds "2024-05-01T12:00:00" 128).
Proof.
  apply (compute_metadata_of_collection sample_env "3f2a9c1e" "blocks"
           [("type", JStr "FeatureCollection");
            ("features",
             JList [coords_feature square_ring; point_feature (JInt 9) (JInt 1)])]
           (Some "city blocks")
           [coords_feature square_ring; point_feature (JInt 9) (JInt 1)]);
    reflexivity.
Defined.

(** ** Creating, then deleting *)

Lemma store_eq (s : store) geo meta :
  geojson_files s = geo -> meta_files s = meta -> s = mk_store geo meta.
Proof. destruct s. cbn. intros -> ->. reflexivity. Qed.

(** X6: a record created under an id that had no file before is removed
    completely by [delete_layer]: the call returns [True] and the directory
    is again what it was before the record was created. *)
Theorem save_layer_then_delete
    (env : environment) (layer_id name : string) (geojson : json)
    (description : option string) (md : metadata) (s : store) :
  path_exists s (get_layer_path layer_id) = false ->
  path_exists s (get_metadata_path layer_id) = false ->
  open_fails env (get_layer_path layer_id) = false ->
  database.compute_metadata env layer_id name geojson description = Ok md ->
  open_fails env (get_metadata_path layer_id) = false ->
  database.delete_layer
    (fst (database.save_layer env layer_id name geojson description s)) layer_id =
    (s, true).
Proof.
  intros Hnogeo Hnometa Hgeo Hmd Hmeta.
  rewrite (save_layer_success _ _ _ _ _ _ _ Hgeo Hmd Hmeta). cbn [fst].
  apply path_exists_geojson in Hnogeo. apply path_exists_metadata in Hnometa.
  rewrite (surjective_pairing (database.delete_layer _ _)). f_equal.
  - rewrite delete_layer_removes_files. cbn. symmetry. apply store_eq.
    + rewrite delete_insert_eq. symmetry. apply delete_id, Hnogeo.
    + rewrite delete_insert_eq. symmetry. apply delete_id, Hnometa.
  - unfold database.delete_layer. cbn. rewrite lookup_insert_eq. cbn.
    rewrite lookup_insert_eq. reflexivity.
Qed.

Lemma save_layer_then_delete_witness :
  database.delete_layer
    (fst (database.save_layer sample_env "3f2a9c1e" "roads"
            (geometry_collection point_geometry) None empty_store)) "3f2a9c1e" =
    (empty_store, true).
Proof.
  apply (save_layer_then_delete sample_env "3f2a9c1e" "roads"
           (geometry_collection point_geometry) None
           (mk_metadata "3f2a9c1e" "roads" None 1 (JStr "Point")
              (Some [NInt 10; NInt 20; NInt 10; NInt 20]) "2024-05-01T12:00:00" 128)
           empty_store); reflexivity.
Defined.

(** ** What a request may touch *)

(** A request leaves the files of every layer but its target alone. *)
Lemma handle_frame fw s req other :
  target req <> Some other ->
  geojson_files (fst (handle fw s req)) !! other = geojson_files s !! other /\
  meta_files (fst (handle fw s req)) !! other = meta_files s !! other.
Proof.
  intros Hne.
  destruct req as [|layer_id|layer_id|env filename content name description|layer_id];
    cbn [handle fst]; try (split; reflexivity).
  - cbn [target] in Hne.
    destruct (upload_layer_frame env filename content name description s other)
      as [Hg Hm]; [congruence|].
    destruct (layers.upload_layer env filename content name description s) as [s' r].
    cbn [fst] in *. split; assumption.
  - cbn [target] in Hne. unfold layers.delete_layer.
    destruct (database.get_layer s layer_id); [|split; reflexivity].
    pose proof (delete_layer_removes_files s layer_id) as Hdel.
    destruct (database.delete_layer s layer_id) as [s' deleted]. cbn [fst] in *.
    rewrite Hdel. cbn. rewrite !lookup_delete_ne by congruence. split; reflexivity.
Qed.

(** X7: a request changes no file of a layer other than its target: the id
    drawn by an upload, the id named by a delete; listing and reading change
    nothing at all. *)
Theorem handle_touches_only_target
    (fw : framework) (s : store) (req : request) (other : string) :
  target req <> Some other ->
  database.get_layer (fst (handle fw s req)) other = database.get_layer s other /\
  database.get_layer_geojson (fst (handle fw s req)) other =
    database.get_layer_geojson s other.
Proof.
  intros Hne. rewrite !get_layer_lookup, !get_layer_geojson_lookup.
  destruct (handle_frame fw s req other Hne) as [Hg Hm]. split; assumption.
Qed.

Lemma handle_touches_only_target_witness :
  database.get_layer
    (fst (handle sample_framework orphan_store (DeleteLayer "0badc0de"))) "3f2a9c1e" =
    database.get_layer orphan_store "3f2a9c1e" /\
  database.get_layer_geojson
    (fst (handle sample_framework orphan_store (DeleteLayer "0badc0de"))) "3f2a9c1e" = database.get_layer_geojson orphan_store "3f2a9c1e".
Proof.
  apply (handle_touches_only_target sample_framework orphan_store
           (DeleteLayer "0badc0de") "3f2a9c1e").
  discriminate.
Defined.

(** ** Metadata never stands alone *)

Lemma handle_keeps_raw_data fw s req :
  metadata_has_raw_data s -> metadata_has_raw_data (fst (handle fw s req)).
Proof.
  intros Hinv layer_id.
  destruct (decide (target req = Some layer_id)) as [Htarget | Hother].
  - destruct req as [|i|i|env filename content name description|i];
      try discriminate; cbn [target] in Htarget; injection Htarget as Heq;
      subst layer_id;
      cbn [handle].
    + unfold layers.upload_layer.
      destruct (negb (endswith_any filename [".geojson"; ".json"]));
        [apply Hinv|].
      unfold try_except, bind, lift, ret.
      destruct (loads_decode content) as [doc|e]; [|apply Hinv].
      destruct (layers.wrap_geojson doc) as [collection|e]; [|apply Hinv].
      rewrite save_layer_cases.
      destruct (open_fails env (get_layer_path (database.generate_layer_id env)));
        [apply Hinv|].
      cbn zeta.
      match goal with
      | |- context [database.compute_metadata ?e ?i ?n ?g ?ds] =>
          destruct (database.compute_metadata e i n g ds) as [md|err]
      end.
      * destruct (open_fails env (get_metadata_path (database.generate_layer_id env)));
          cbn; rewrite !lookup_insert_eq; reflexivity.
      * cbn. rewrite !lookup_insert_eq. reflexivity.
    + unfold layers.delete_layer.
      destruct (database.get_layer s i); [|apply Hinv].
      pose proof (delete_layer_removes_files s i) as Hdel.
      destruct (database.delete_layer s i) as [s' deleted]. cbn [fst] in *.
      rewrite Hdel. cbn. rewrite !lookup_delete_eq. discriminate.
  - destruct (handle_frame fw s req layer_id Hother) as [Hg Hm].
    cbn. rewrite Hg, Hm. apply Hinv.
Qed.

(** X8: if every metadata file has its raw-data file beside it, this is
    still so after any sequence of requests, also when uploads fail half
    way: [save_layer] writes the raw data first and [delete_layer] removes
    both files. *)
Theorem metadata_never_without_raw_data
    (fw : framework) (s : store) (reqs : list request) :
  metadata_has_raw_data s -> metadata_has_raw_data (serve_all fw s reqs).
Proof.
  revert s. induction reqs as [|req reqs IH]; intros s Hinv; [exact Hinv|].
  cbn [serve_all]. apply IH, handle_keeps_raw_data, Hinv.
Qed.

Lemma metadata_never_without_raw_data_witness :
  metadata_has_raw_data
    (serve_all sample_framework empty_store
       [UploadLayer metadata_unwritable_env "a.json" (JsonText point_geometry) None None;
        UploadLayer sample_env "b.geojson" (JsonText point_geometry) None None;
        DeleteLayer "3f2a9c1e"]).
Proof.
  apply metadata_never_without_raw_data. intros layer_id H. discriminate H.
Defined.

(** ** What an upload answers *)

Lemma wrap_geojson_raises v e :
  layers.wrap_geojson v = Raise e ->
  e = AttributeError \/ e = HTTPException 400 InvalidGeoJSON.
Proof.
  unfold layers.wrap_geojson. destruct v as [| | | | | |d]; try (intros [= <-]; auto).
  destruct (negb _); [|discriminate].
  destruct (eq_str _ "Feature"); [discriminate|].
  destruct (dict_has d "coordinates"); [discriminate|].
  intros [= <-]. auto.
Qed.

Lemma wrap_geojson_unrecognised v :
  unrecognised v = true <-> exists e, layers.wrap_geojson v = Raise e.
Proof.
  unfold unrecognised, layers.wrap_geojson.
  destruct v as [| | | | | |d]; try (split; [eauto | reflexivity]).
  destruct (eq_str (dict_get_or d "type" JNull) "FeatureCollection");
    destruct (eq_str (dict_get_or d "type" JNull) "Feature");
    destruct (dict_has d "coordinates"); cbn;
    split; try discriminate; try (intros [e He]; discriminate He); eauto.
Qed.

Lemma upload_handler_cases e :
  e <> JSONDecodeError -> layers.upload_handler e = HTTPException 500 UploadFailed.
Proof. destruct e; cbn; congruence. Qed.

Lemma calculate_bounds_no_decode_error features :
  calculate_bounds features <> Raise JSONDecodeError.
Proof.
  assert (Hc : forall c st, process_coords c st <> Raise JSONDecodeError).
  { induction c as [| | | |s|l IH|d _] using json_nested_ind; intros st;
      try discriminate.
    - cbn. destruct (String.eqb s ""); discriminate.
    - destruct l as [|c0 rest]; [discriminate|].
      destruct (as_number c0) as [lng|] eqn:Hc0.
      + destruct rest as [|c1 rest]; [cbn; rewrite Hc0; discriminate|].
        rewrite (process_coords_leaf _ _ _ _ _ Hc0). unfold update.
        destruct (as_number c1); discriminate.
      + rewrite (process_coords_node _ _ _ Hc0). clear Hc0. revert st.
        induction IH as [|c cs Hc _ IHcs]; intros st; [discriminate|].
        cbn [process_each]. destruct (process_coords c st) eqn:E; [apply IHcs|].
        intros [= ->]. apply (Hc st E). }
  assert (Hf : forall fs st, process_features fs st <> Raise JSONDecodeError).
  { induction fs as [|f fs IH]; intros st; [discriminate|].
    cbn [process_features]. destruct (process_feature f st) eqn:E; [apply IH|].
    intros [= ->]. revert E. unfold process_feature, py_get.
    destruct f; try discriminate.
    destruct (dict_get_or d "geometry" (JDict [])); try discriminate.
    destruct (truthy _); [apply Hc | discriminate]. }
  unfold calculate_bounds. destruct features as [|f fs]; [discriminate|].
  destruct (process_features (f :: fs) initial) eqn:E.
  - destruct (py_eq _ _); discriminate.
  - intros [= ->]. apply (Hf _ _ E).
Qed.

Lemma compute_metadata_no_decode_error env layer_id name geojson description :
  database.compute_metadata env layer_id name geojson description <> Raise JSONDecodeError.
Proof.
  unfold database.compute_metadata, py_get.
  destruct geojson as [| | | | | |d]; try discriminate.
  destruct (py_items _) as [items|]; [|discriminate].
  destruct (truthy _).
  - destruct (py_index0 _) as [first|e] eqn:E.
    + destruct first as [| | | | | |fd]; try discriminate.
      destruct (dict_get_or fd "geometry" (JDict [])); try discriminate.
      pose proof (calculate_bounds_no_decode_error items).
      destruct (calculate_bounds items); [discriminate | congruence].
    + intros [= ->]. revert E.
      destruct (dict_get_or d "features" (JList [])) as [| | | |[]|[]|]; discriminate.
  - pose proof (calculate_bounds_no_decode_error items).
    destruct (calculate_bounds items); [discriminate | congruence].
Qed.

(** What [upload_layer] does once the file name is accepted, by the
    outcome of each step. *)
Lemma upload_layer_cases env filename content name description s :
  endswith_any filename [".geojson"; ".json"] = true ->
  layers.upload_layer env filename content name description s =
    match loads_decode content with
    | Raise e => (s, Raise (layers.upload_handler e))
    | Ok doc =>
        match layers.wrap_geojson doc with
        | Raise e => (s, Raise (layers.upload_handler e))
        | Ok collection =>
            let layer_id := database.generate_layer_id env in
            let layer_name := layer_name_for name filename in
            match database.save_layer env layer_id layer_name collection description s with
            | (s', Ok md) =>
                (s', Ok (mk_UploadResponse true layer_id layer_name (md_feature_count md)
                           ("Layer '" ++ layer_name ++ "' uploaded successfully")))
            | (s', Raise e) => (s', Raise (layers.upload_handler e))
            end
        end
    end.
Proof.
  intros Hsuffix. unfold layers.upload_layer, layer_name_for. rewrite Hsuffix.
  cbn [negb]. unfold try_except, bind, lift, ret.
  destruct (loads_decode content) as [doc|e]; [|reflexivity].
  destruct (layers.wrap_geojson doc) as [collection|e]; [|reflexivity].
  cbv zeta.
  match goal with
  | |- context [database.save_layer ?e ?i ?n ?g ?d s] =>
      destruct (database.save_layer e i n g d s) as [s' [md|err]]
  end; reflexivity.
Qed.

(** X9: whatever is uploaded, the handler returns a response or raises one
    of three errors: 400 for a file name without an accepted suffix, 400 for
    text that is not JSON, 500 for everything else.  The 400 "invalid
    GeoJSON" raised inside the [try] block never leaves the handler, and
    the two 400 answers leave the directory unchanged. *)
Theorem upload_layer_outcomes
    (env : environment) (filename : string) (content : file_content)
    (name description : option string) (s : store) :
  let after := layers.upload_layer env filename content name description s in
  ((exists response, snd after = Ok response) \/
   snd after = Raise (HTTPException 400 BadFileSuffix) \/
   snd after = Raise (HTTPException 400 InvalidJSON) \/
   snd after = Raise (HTTPException 500 UploadFailed)) /\
  (snd after = Raise (HTTPException 400 BadFileSuffix) <->
   endswith_any filename [".geojson"; ".json"] = false) /\
  (snd after = Raise (HTTPException 400 InvalidJSON) <->
   endswith_any filename [".geojson"; ".json"] = true /\ content = NotJson) /\
  (forall detail, snd after = Raise (HTTPException 400 detail) -> fst after = s).
Proof.
  intros after. subst after.
  destruct (endswith_any filename [".geojson"; ".json"]) eqn:Hsuffix.
  2:{ unfold layers.upload_layer. rewrite Hsuffix. cbn.
      repeat split; auto; try congruence. intros [? ?]; congruence. }
  rewrite (upload_layer_cases _ _ _ _ _ _ Hsuffix).
  destruct content as [| |doc]; cbn [loads_decode].
  1,2: cbn; repeat split; auto; try congruence; intros [? ?]; congruence.
  destruct (layers.wrap_geojson doc) as [collection|e] eqn:Hwrap.
  2:{ destruct (wrap_geojson_raises _ _ Hwrap) as [-> | ->]; cbn;
        repeat split; auto; try congruence; intros [? ?]; congruence. }
  cbv zeta. rewrite save_layer_cases.
  destruct (open_fails env (get_layer_path (database.generate_layer_id env))).
  { cbn. repeat split; auto; try congruence. intros [? ?]; congruence. }
  cbv zeta.
  match goal with
  | |- context [database.compute_metadata ?e ?i ?n ?g ?ds] =>
      pose proof (compute_metadata_no_decode_error e i n g ds) as Hnd;
      destruct (database.compute_metadata e i n g ds) as [md|err]
  end.
  - destruct (open_fails env (get_metadata_path (database.generate_layer_id env)));
      cbn; repeat split; eauto; try congruence; intros [? ?]; congruence.
  - cbn [fst snd]. rewrite (upload_handler_cases err) by congruence.
    repeat split; auto; try congruence. intros [? ?]; congruence.
Qed.

(** X10: a parsed upload that is not an object, or an object that is
    neither a feature collection nor a feature and has no ["coordinates"]
    key, is refused with status 500, not 400, and nothing is written. *)
Theorem upload_unrecognised_shape_is_500
    (env : environment) (filename : string) (v : json)
    (name description : option string) (s : store) :
  endswith_any filename [".geojson"; ".json"] = true ->
  unrecognised v = true ->
  layers.upload_layer env filename (JsonText v) name description s =
    (s, Raise (HTTPException 500 UploadFailed)).
Proof.
  intros Hsuffix Hv. rewrite (upload_layer_cases _ _ _ _ _ _ Hsuffix).
  cbn [loads_decode]. apply wrap_geojson_unrecognised in Hv as [e He]. rewrite He.
  destruct (wrap_geojson_raises _ _ He) as [-> | ->]; reflexivity.
Qed.

Lemma upload_unrecognised_shape_is_500_witness :
  layers.upload_layer sample_env "notes.json"
    (JsonText (JDict [("type", JStr "Topology"); ("arcs", JList [])])) None None
    empty_store = (empty_store, Raise (HTTPException 500 UploadFailed)) /\
  layers.upload_layer sample_env "notes.json" (JsonText (JList [JInt 1; JInt 2]))
    None None empty_store = (empty_store, Raise (HTTPException 500 UploadFailed)).
Proof.
  split; apply upload_unrecognised_shape_is_500; reflexivity.
Defined.

(** ** Uploads that fail after the first write *)

Lemma compute_metadata_ill_formed env layer_id name d description features :
  dict_get_or d "features" (JList []) = JList features ->
  forallb well_formed_feature features = false ->
  exists e, database.compute_metadata env layer_id name (JDict d) description = Raise e.
Proof.
  intros Hfeatures Hwf. unfold database.compute_metadata.
  change (py_get (JDict d) "features" (JList []))
    with (Ok (dict_get_or d "features" (JList []))).
  rewrite Hfeatures. cbn [py_items].
  destruct (calculate_bounds_ill_formed_raises features Hwf) as [e He]. rewrite He.
  destruct (truthy (JList features)); [|eauto].
  destruct (py_index0 (JList features)) as [first|e1]; [|eauto].
  destruct (py_get first "geometry" (JDict [])) as [geom|e2]; [|eauto].
  destruct (py_get geom "type" JNull); eauto.
Qed.

(** X11: an uploaded feature collection with a malformed node among its
    features is answered with status 500, but only after its raw data has
    been written: the raw-data file of the drawn id holds the document, and
    no metadata file is written for it. *)
Theorem upload_malformed_collection_leaves_raw_data
    (env : environment) (filename : string) (d : list (string * json))
    (features : list json) (name description : option string) (s : store) :
  endswith_any filename [".geojson"; ".json"] = true ->
  eq_str (dict_get_or d "type" JNull) "FeatureCollection" = true ->
  dict_get_or d "features" (JList []) = JList features ->
  forallb well_formed_feature features = false ->
  open_fails env (get_layer_path (database.generate_layer_id env)) = false ->
  let after := layers.upload_layer env filename (JsonText (JDict d)) name description s in
  snd after = Raise (HTTPException 500 UploadFailed) /\
  geojson_files (fst after) =
    <[database.generate_layer_id env := JDict d]> (geojson_files s) /\
  meta_files (fst after) = meta_files s.
Proof.
  intros Hsuffix Htype Hfeatures Hwf Hopen after. subst after.
  rewrite (upload_layer_cases _ _ _ _ _ _ Hsuffix). cbn [loads_decode].
  assert (Hwrap : layers.wrap_geojson (JDict d) = Ok (JDict d)).
  { unfold layers.wrap_geojson. rewrite Htype. reflexivity. }
  rewrite Hwrap. cbv zeta. rewrite save_layer_cases, Hopen. cbv zeta.
  destruct (compute_metadata_ill_formed env (database.generate_layer_id env)
              (layer_name_for name filename) d description features Hfeatures Hwf)
    as [e He].
  rewrite He. cbn [fst snd].
  rewrite (upload_handler_cases e); [repeat split|].
  intros ->. exact (compute_metadata_no_decode_error _ _ _ _ _ He).
Qed.

Lemma upload_malformed_collection_leaves_raw_data_witness :
  let doc :=
    [("type", JStr "FeatureCollection");
     ("features", JList [coords_feature (JList [JInt 5])])] in
  let after :=
    layers.upload_layer sample_env "broken.geojson" (JsonText (JDict doc)) None None
      empty_store in
  snd after = Raise (HTTPException 500 UploadFailed) /\
  geojson_files (fst after) = <["3f2a9c1e" := JDict doc]> (geojson_files empty_store) /\
  meta_files (fst after) = meta_files empty_store.
Proof.
  apply (upload_malformed_collection_leaves_raw_data sample_env "broken.geojson"
           [("type", JStr "FeatureCollection");
            ("features", JList [coords_feature (JList [JInt 5])])]
           [coords_feature (JList [JInt 5])] None None empty_store); reflexivity.
Defined.

(** ** Uploads that succeed *)

Lemma upload_layer_success env filename doc collection name description md s :
  endswith_any filename [".geojson"; ".json"] = true ->
  layers.wrap_geojson doc = Ok collection ->
  database.compute_metadata env (database.generate_layer_id env)
    (layer_name_for name filename) collection description = Ok md ->
  (forall p, open_fails env p = false) ->
  layers.upload_layer env filename (JsonText doc) name description s =
    (mk_store (<[database.generate_layer_id env := collection]> (geojson_files s))
              (<[database.generate_layer_id env := md]> (meta_files s)),
     Ok (mk_UploadResponse true (database.generate_layer_id env)
           (layer_name_for name filename) (md_feature_count md)
           ("Layer '" ++ layer_name_for name filename ++ "' uploaded successfully"))).
Proof.
  intros Hsuffix Hwrap Hmd Hopen. rewrite (upload_layer_cases _ _ _ _ _ _ Hsuffix).
  cbn [loads_decode]. rewrite Hwrap. cbv zeta.
  rewrite (save_layer_success _ _ _ _ _ _ _ (Hopen _) Hmd (Hopen _)). reflexivity.
Qed.

(** X12: a feature collection whose features have no malformed node is
    stored as it was uploaded when no write fails.  The response and the
    stored metadata carry the drawn id, the layer name and the number of
    features; the metadata carries the bounds of the features and the
    geometry type of the first one. *)
Theorem upload_feature_collection
    (env : environment) (filename : string) (d : list (string * json))
    (features : list json) (name description : option string) (s : store) :
  endswith_any filename [".geojson"; ".json"] = true ->
  eq_str (dict_get_or d "type" JNull) "FeatureCollection" = true ->
  dict_get_or d "features" (JList []) = JList features ->
  forallb well_formed_feature features = true ->
  (forall p, open_fails env p = false) ->
  let after := layers.upload_layer env filename (JsonText (JDict d)) name description s in
  let layer_id := database.generate_layer_id env in
  exists bounds response md,
    calculate_bounds features = Ok bounds /\
    snd after = Ok response /\
    up_layer_id response = layer_id /\
    up_name response = layer_name_for name filename /\
    up_feature_count response = Z.of_nat (length features) /\
    database.get_layer_geojson (fst after) layer_id = Some (JDict d) /\
    database.get_layer (fst after) layer_id = Some md /\
    md = mk_metadata layer_id (layer_name_for name filename) description
           (Z.of_nat (length features)) (first_geometry_type features) bounds
           (now_isoformat env) (getsize env (JDict d)).
Proof.
  intros Hsuffix Htype Hfeatures Hwf Hopen after layer_id. subst after layer_id.
  destruct (calculate_bounds_well_formed_returns features Hwf) as [bounds Hb].
  assert (Hwrap : layers.wrap_geojson (JDict d) = Ok (JDict d)).
  { unfold layers.wrap_geojson. rewrite Htype. reflexivity. }
  pose proof (compute_metadata_well_formed env (database.generate_layer_id env)
                (layer_name_for name filename) d description features bounds
                Hfeatures Hwf Hb) as Hmd.
  rewrite (upload_layer_success _ _ _ _ _ _ _ _ Hsuffix Hwrap Hmd Hopen).
  eexists bounds, _, _. cbn [fst snd].
  rewrite get_layer_lookup, get_layer_geojson_lookup. cbn.
  rewrite !lookup_insert_eq. repeat split. exact Hb.
Qed.

Lemma upload_feature_collection_witness :
  let doc :=
    [("type", JStr "FeatureCollection");
     ("features", JList [coords_feature square_ring; point_feature (JInt 9) (JInt 1)])] in
  let after :=
    layers.upload_layer sample_env "blocks.geojson" (JsonText (JDict doc)) None None
      empty_store in
  exists response md,
    snd after = Ok response /\ up_feature_count response = 2 /\
    database.get_layer_geojson (fst after) "3f2a9c1e" = Some (JDict doc) /\
    database.get_layer (fst after) "3f2a9c1e" = Some md /\
    md_bounds md = Some [NInt 0; NInt 0; NInt 9; NInt 5] /\
    md_geometry_type md = JStr "Polygon" /\ md_name md = "blocks".
Proof.
  cbv zeta.
  destruct (upload_feature_collection sample_env "blocks.geojson"
              [("type", JStr "FeatureCollection");
               ("features",
                JList [coords_feature square_ring; point_feature (JInt 9) (JInt 1)])]
              [coords_feature square_ring; point_feature (JInt 9) (JInt 1)]
              None None empty_store eq_refl eq_refl eq_refl eq_refl
              (fun _ => eq_refl))
    as (bounds & response & md & Hb & Hr & _ & _ & Hc & Hg & Hm & Hmd).
  exists response, md. rewrite Hmd. cbn [md_bounds md_geometry_type md_name].
  injection Hb as <-. repeat split; assumption.
Defined.

(** X13: an uploaded feature without a malformed node is stored as a
    collection holding just that feature when no write fails; the record
    counts one feature and carries the geometry type and the bounds of that
    feature. *)
Theorem upload_single_feature
    (env : environment) (filename : string) (d : list (string * json))
    (name description : option string) (s : store) :
  endswith_any filename [".geojson"; ".json"] = true ->
  eq_str (dict_get_or d "type" JNull) "Feature" = true ->
  well_formed_feature (JDict d) = true ->
  (forall p, open_fails env p = false) ->
  let after := layers.upload_layer env filename (JsonText (JDict d)) name description s in
  let layer_id := database.generate_layer_id env in
  exists bounds response md,
    calculate_bounds [JDict d] = Ok bounds /\
    snd after = Ok response /\
    up_feature_count response = 1 /\
    database.get_layer_geojson (fst after) layer_id =
      Some (feature_collection_of (JDict d)) /\
    database.get_layer (fst after) layer_id = Some md /\
    md_feature_count md = 1 /\
    md_geometry_type md = geometry_type_of (JDict d) /\
    md_bounds md = bounds.
Proof.
  intros Hsuffix Htype Hwf Hopen after layer_id. subst after layer_id.
  assert (Hwfs : forallb well_formed_feature [JDict d] = true).
  { cbn [forallb]. rewrite Hwf. reflexivity. }
  destruct (calculate_bounds_well_formed_returns _ Hwfs) as [bounds Hb].
  assert (Hwrap : layers.wrap_geojson (JDict d) = Ok (feature_collection_of (JDict d))).
  { unfold layers.wrap_geojson. rewrite Htype.
    destruct (dict_get_or d "type" JNull) as [| | | |t| |]; try discriminate.
    cbn in Htype |- *. apply String.eqb_eq in Htype. subst t. reflexivity. }
  pose proof (compute_metadata_well_formed env (database.generate_layer_id env)
                (layer_name_for name filename)
                [("type", JStr "FeatureCollection"); ("features", JList [JDict d])]
                description [JDict d] bounds eq_refl Hwfs Hb) as Hmd.
  fold (feature_collection_of (JDict d)) in Hmd.
  rewrite (upload_layer_success _ _ _ _ _ _ _ _ Hsuffix Hwrap Hmd Hopen).
  eexists bounds, _, _. cbn [fst snd].
  rewrite get_layer_lookup, get_layer_geojson_lookup. cbn.
  rewrite !lookup_insert_eq. repeat split. exact Hb.
Qed.

Lemma upload_single_feature_witness :
  let after :=
    layers.upload_layer sample_env "square.json" (JsonText (coords_feature square_ring))
      None None empty_store in
  exists response md,
    snd after = Ok response /\ up_feature_count response = 1 /\
    database.get_layer_geojson (fst after) "3f2a9c1e" =
      Some (feature_collection_of (coords_feature square_ring)) /\
    database.get_layer (fst after) "3f2a9c1e" = Some md /\
    md_geometry_type md = JStr "Polygon" /\
    md_bounds md = Some [NInt 0; NInt 0; NInt 5; NInt 5].
Proof.
  cbv zeta.
  destruct (upload_single_feature sample_env "square.json"
              [("type", JStr "Feature");
               ("geometry",
                JDict [("type", JStr "Polygon"); ("coordinates", square_ring)]);
               ("properties", JDict [])]
              None None empty_store eq_refl eq_refl eq_refl (fun _ => eq_refl))
    as (bounds & response & md & Hb & Hr & Hc & Hg & Hm & _ & Ht & Hbd).
  exists response, md. injection Hb as <-.
  repeat split; assumption.
Defined.

(** ** The name and the count after an upload *)

(** A successful upload has written both files of the drawn id, and named
    the layer after the form field or the file. *)
Lemma upload_layer_ok env filename content name description s response :
  snd (layers.upload_layer env filename content name description s) = Ok response ->
  exists collection md,
    fst (layers.upload_layer env filename content name description s) =
      mk_store (<[database.generate_layer_id env := collection]> (geojson_files s))
               (<[database.generate_layer_id env := md]> (meta_files s)) /\
    md_name md = layer_name_for name filename /\
    md_id md = database.generate_layer_id env /\
    up_layer_id response = database.generate_layer_id env /\
    up_name response = layer_name_for name filename /\
    up_feature_count response = md_feature_count md.
Proof.
  destruct (endswith_any filename [".geojson"; ".json"]) eqn:Hsuffix.
  2:{ unfold layers.upload_layer. rewrite Hsuffix. discriminate. }
  rewrite (upload_layer_cases _ _ _ _ _ _ Hsuffix).
  destruct (loads_decode content) as [doc|e]; [|discriminate].
  destruct (layers.wrap_geojson doc) as [collection|e]; [|discriminate].
  cbv zeta. rewrite save_layer_cases.
  destruct (open_fails env (get_layer_path (database.generate_layer_id env)));
    [discriminate|].
  cbv zeta.
  match goal with
  | |- context [database.compute_metadata ?e ?i ?n ?g ?ds] =>
      destruct (database.compute_metadata e i n g ds) as [md|err] eqn:Hmd
  end; [|discriminate].
  destruct (open_fails env (get_metadata_path (database.generate_layer_id env)));
    [discriminate|].
  cbn [fst snd]. intros [= <-]. exists collection, md. cbn.
  assert (Hfields : md_name md = layer_name_for name filename /\
                    md_id md = database.generate_layer_id env).
  { revert Hmd. unfold database.compute_metadata.
    destruct (py_get collection "features" (JList [])); [|discriminate].
    destruct (py_items _); [|discriminate].
    match goal with |- context [if ?b then _ else _] => destruct b end.
    - destruct (py_index0 _); [|discriminate].
      destruct (py_get _ "geometry" _); [|discriminate].
      destruct (py_get _ "type" _); [|discriminate].
      destruct (calculate_bounds _); [|discriminate]. intros [= <-]. auto.
    - destruct (calculate_bounds _); [|discriminate]. intros [= <-]. auto. }
  destruct Hfields. repeat split; assumption.
Qed.

Lemma before_last_dot_none s : has_dot s = false -> before_last_dot s = None.
Proof.
  induction s as [|c s IH]; [reflexivity|].
  cbn [has_dot before_last_dot]. intros H. apply orb_false_iff in H as [Hc Hs].
  rewrite (IH Hs), Hc. reflexivity.
Qed.

Lemma rsplit_dot_head_app stem ext :
  has_dot ext = false -> rsplit_dot_head (stem ++ "." ++ ext) = stem.
Proof.
  intros Hext. unfold rsplit_dot_head.
  assert (H : before_last_dot (stem ++ "." ++ ext) = Some stem).
  { induction stem as [|c stem IH].
    - change ("" ++ "." ++ ext) with (String "."%char ext).
      cbn [before_last_dot]. rewrite (before_last_dot_none _ Hext). reflexivity.
    - change (String c stem ++ "." ++ ext) with (String c (stem ++ "." ++ ext)).
      cbn [before_last_dot]. rewrite IH. reflexivity. }
  rewrite H. reflexivity.
Qed.

(** X14: a successful upload names its layer, in the response and in the
    stored metadata alike, after the [name] form field when that is given
    and not empty, and otherwise after the file: the file name up to its
    last dot. *)
Theorem upload_layer_name
    (env : environment) (filename : string) (content : file_content)
    (name description : option string) (s : store) (response : UploadResponse) :
  snd (layers.upload_layer env filename content name description s) = Ok response ->
  (exists md,
     database.get_layer
       (fst (layers.upload_layer env filename content name description s))
       (up_layer_id response) = Some md /\
     md_name md = up_name response) /\
  (forall n, name = Some n -> n <> "" -> up_name response = n) /\
  (forall stem ext,
     name = None \/ name = Some "" ->
     filename = stem ++ "." ++ ext -> has_dot ext = false ->
     up_name response = stem).
Proof.
  intros Hok.
  destruct (upload_layer_ok _ _ _ _ _ _ _ Hok)
    as (collection & md & Hstore & Hname & _ & Hid & Hup & _).
  split; [|split].
  - exists md. rewrite Hstore, Hid, get_layer_lookup. cbn.
    rewrite lookup_insert_eq. split; congruence.
  - intros n -> Hn. rewrite Hup. cbn. apply String.eqb_neq in Hn. rewrite Hn.
    reflexivity.
  - intros stem ext Hnone -> Hext. rewrite Hup.
    destruct Hnone as [-> | ->]; cbn; apply rsplit_dot_head_app, Hext.
Qed.

Lemma upload_layer_name_witness :
  exists response,
    snd (layers.upload_layer sample_env "city.blocks.geojson" (JsonText point_geometry)
           (Some "") None empty_store) = Ok response /\
    up_name response = "city.blocks".
Proof.
  eexists. split; [reflexivity|].
  refine (proj2 (proj2 (upload_layer_name sample_env "city.blocks.geojson"
                          (JsonText point_geometry) (Some "") None empty_store _
                          eq_refl)) "city.blocks" "geojson" _ eq_refl eq_refl).
  right. reflexivity.
Defined.

Lemma list_layers_length s : length (database.list_layers s) = size (meta_files s).
Proof.
  unfold database.list_layers.
  rewrite (Permutation_length (sort_desc_perm (glob_meta s))). unfold glob_meta.
  rewrite length_fmap. apply length_map_to_list.
Qed.

(** When the listing endpoint answers, it answers with the records of
    [db.list_layers] and their number. *)
Lemma list_layers_total fw s r :
  layers.list_layers fw s = Ok r ->
  layers r = database.list_layers s /\ total r = Z.of_nat (size (meta_files s)).
Proof.
  unfold layers.list_layers.
  destruct (forallb (validates fw) (database.list_layers s)); [|discriminate].
  destruct (forallb (renders_model fw) (database.list_layers s)); [|discriminate].
  intros [= <-]. cbn. rewrite list_layers_length. split; reflexivity.
Qed.

(** X15: the number of records that [db.list_layers] returns grows by one
    with a successful upload that draws an unused id; an upload that draws
    the id of an existing record replaces that record and leaves the number
    as it was.  Whenever the listing endpoint answers before and after the
    upload, its totals differ in the same way. *)
Theorem upload_layer_total
    (env : environment) (filename : string) (content : file_content)
    (name description : option string) (s : store) (response : UploadResponse) :
  snd (layers.upload_layer env filename content name description s) = Ok response ->
  let after := fst (layers.upload_layer env filename content name description s) in
  let added :=
    if path_exists s (get_metadata_path (up_layer_id response)) then 0%nat else 1%nat in
  length (database.list_layers after) = (length (database.list_layers s) + added)%nat /\
  forall fw before afterwards,
    layers.list_layers fw s = Ok before ->
    layers.list_layers fw after = Ok afterwards ->
    total afterwards = total before + Z.of_nat added.
Proof.
  intros Hok after added. subst after added.
  destruct (upload_layer_ok _ _ _ _ _ _ _ Hok)
    as (collection & md & Hstore & _ & _ & Hid & _ & _).
  assert (Hlen : forall s', s' = fst (layers.upload_layer env filename content name
                                       description s) ->
            size (meta_files s') =
            (size (meta_files s) +
             (if path_exists s (get_metadata_path (up_layer_id response))
              then 0 else 1))%nat).
  { intros s' ->. rewrite Hstore, Hid. cbn. rewrite map_size_insert.
    destruct (meta_files s !! database.generate_layer_id env); cbn; lia. }
  split.
  - rewrite !list_layers_length. apply Hlen. reflexivity.
  - intros fw before afterwards Hb Ha.
    destruct (list_layers_total _ _ _ Hb) as [_ ->].
    destruct (list_layers_total _ _ _ Ha) as [_ ->].
    rewrite (Hlen _ eq_refl). lia.
Qed.

Lemma upload_layer_total_witness :
  length (database.list_layers
            (fst (layers.upload_layer sample_env "a.json" (JsonText point_geometry)
                    None None empty_store))) =
    (length (database.list_layers empty_store) + 1)%nat.
Proof.
  apply (upload_layer_total sample_env "a.json" (JsonText point_geometry) None None
           empty_store
           (mk_UploadResponse true "3f2a9c1e" "a" 1 "Layer 'a' uploaded successfully")).
  reflexivity.
Defined.

(** ** Deleting through the interface *)

(** X16: the DELETE endpoint, called for a layer that has metadata,
    succeeds and removes both files of the layer; afterwards the two GET
    endpoints and a second DELETE for the same id answer 404, and
    [db.list_layers] returns one record less.  Whenever the listing
    endpoint answers before and after, its total is one less. *)
Theorem delete_endpoint_removes_layer
    (fw : framework) (s : store) (layer_id : string) (md : metadata) :
  database.get_layer s layer_id = Some md ->
  let after := fst (layers.delete_layer s layer_id) in
  snd (layers.delete_layer s layer_id) = Ok true /\
  after = mk_store (delete layer_id (geojson_files s)) (delete layer_id (meta_files s)) /\
  layers.get_layer fw after layer_id =
    Raise (HTTPException 404 (LayerNotFound layer_id)) /\
  layers.get_layer_geojson fw after layer_id =
    Raise (HTTPException 404 (LayerNotFound layer_id)) /\
  layers.delete_layer after layer_id =
    (after, Raise (HTTPException 404 (LayerNotFound layer_id))) /\
  S (length (database.list_layers after)) = length (database.list_layers s) /\
  forall before afterwards,
    layers.list_layers fw s = Ok before ->
    layers.list_layers fw after = Ok afterwards ->
    total afterwards = total before - 1.
Proof.
  intros Hget after. subst after.
  assert (Hdelete : layers.delete_layer s layer_id =
            (mk_store (delete layer_id (geojson_files s))
                      (delete layer_id (meta_files s)), Ok true)).
  { unfold layers.delete_layer. rewrite Hget.
    pose proof (delete_layer_removes_files s layer_id) as Hdel.
    destruct (database.delete_layer s layer_id) as [s' deleted]. cbn [fst] in Hdel.
    rewrite Hdel. reflexivity. }
  rewrite Hdelete. cbn [fst snd]. split; [reflexivity|]. split; [reflexivity|].
  assert (Hsize : S (size (delete layer_id (meta_files s))) = size (meta_files s)).
  { rewrite get_layer_lookup in Hget. rewrite map_size_delete, Hget.
    assert (size (meta_files s) <> 0)%nat; [|cbn; lia].
    intros Hz. apply map_size_empty_iff in Hz. rewrite Hz in Hget.
    rewrite lookup_empty in Hget. discriminate. }
  unfold layers.get_layer, layers.get_layer_geojson, layers.delete_layer.
  rewrite !get_layer_lookup, !get_layer_geojson_lookup. cbn [geojson_files meta_files].
  rewrite !lookup_delete_eq.
  split; [reflexivity|]. split; [reflexivity|]. split; [reflexivity|]. split.
  - rewrite !list_layers_length. exact Hsize.
  - intros before afterwards Hb Ha.
    destruct (list_layers_total _ _ _ Hb) as [_ ->].
    destruct (list_layers_total _ _ _ Ha) as [_ ->].
    cbn [meta_files]. lia.
Qed.

Lemma delete_endpoint_removes_layer_witness :
  let s :=
    fst (layers.upload_layer sample_env "a.json" (JsonText point_geometry) None None
           empty_store) in
  snd (layers.delete_layer s "3f2a9c1e") = Ok true /\
  layers.get_layer sample_framework (fst (layers.delete_layer s "3f2a9c1e")) "3f2a9c1e" =
    Raise (HTTPException 404 (LayerNotFound "3f2a9c1e")) /\
  layers.get_layer_geojson sample_framework (fst (layers.delete_layer s "3f2a9c1e"))
    "3f2a9c1e" = Raise (HTTPException 404 (LayerNotFound "3f2a9c1e")) /\
  S (length (database.list_layers (fst (layers.delete_layer s "3f2a9c1e")))) =
    length (database.list_layers s).
Proof.
  cbv zeta.
  destruct (delete_endpoint_removes_layer sample_framework
              (fst (layers.upload_layer sample_env "a.json" (JsonText point_geometry)
                      None None empty_store))
              "3f2a9c1e"
              (mk_metadata "3f2a9c1e" "a" None 1 (JStr "Point")
                 (Some [NInt 10; NInt 20; NInt 10; NInt 20]) "2024-05-01T12:00:00" 128))
    as (H1 & _ & H3 & H4 & _ & H6 & _).
  - vm_compute. reflexivity.
  - repeat split; assumption.
Defined.

(** ** Uploading, then reading *)

Lemma wrap_geojson_truthy doc collection :
  layers.wrap_geojson doc = Ok collection -> truthy collection = true.
Proof.
  unfold layers.wrap_geojson. destruct doc as [| | | | | |d]; try discriminate.
  destruct (eq_str (dict_get_or d "type" JNull) "FeatureCollection") eqn:Htype; cbn [negb].
  - intros [= <-]. destruct d; [discriminate Htype | reflexivity].
  - destruct (eq_str _ "Feature"); [intros [= <-]; reflexivity|].
    destruct (dict_has d "coordinates"); [intros [= <-]; reflexivity | discriminate].
Qed.

Lemma upload_layer_ok_document env filename content name description s response :
  snd (layers.upload_layer env filename content name description s) = Ok response ->
  exists doc collection md,
    content = JsonText doc /\
    layers.wrap_geojson doc = Ok collection /\
    database.compute_metadata env (database.generate_layer_id env)
      (layer_name_for name filename) collection description = Ok md /\
    fst (layers.upload_layer env filename content name description s) =
      mk_store (<[database.generate_layer_id env := collection]> (geojson_files s))
               (<[database.generate_layer_id env := md]> (meta_files s)) /\
    response =
      mk_UploadResponse true (database.generate_layer_id env)
        (layer_name_for name filename) (md_feature_count md)
        ("Layer '" ++ layer_name_for name filename ++ "' uploaded successfully").
Proof.
  destruct (endswith_any filename [".geojson"; ".json"]) eqn:Hsuffix.
  2:{ unfold layers.upload_layer. rewrite Hsuffix. discriminate. }
  rewrite (upload_layer_cases _ _ _ _ _ _ Hsuffix).
  destruct content as [| |doc]; try discriminate. cbn [loads_decode].
  destruct (layers.wrap_geojson doc) as [collection|e] eqn:Hwrap; [|discriminate].
  cbv zeta. rewrite save_layer_cases.
  destruct (open_fails env (get_layer_path (database.generate_layer_id env)));
    [discriminate|].
  cbv zeta.
  match goal with
  | |- context [database.compute_metadata ?e ?i ?n ?g ?ds] =>
      destruct (database.compute_metadata e i n g ds) as [md|err] eqn:Hmd
  end; [|discriminate].
  destruct (open_fails env (get_metadata_path (database.generate_layer_id env)));
    [discriminate|].
  cbn [fst snd]. intros [= <-]. exists doc, collection, md. repeat split; assumption.
Qed.

(** X17: after a successful upload the store reads back, under the id in
    the response, the uploaded document in its collection shape and a
    record whose feature count is the one in the response; computing the
    metadata again from the stored raw data gives the stored record.  The
    raw-data endpoint answers with the document when it can be rendered, and
    the metadata endpoint with the record when it passes validation and can
    be rendered. *)
Theorem upload_then_get
    (env : environment) (filename : string) (content : file_content)
    (name description : option string) (s : store) (response : UploadResponse) :
  snd (layers.upload_layer env filename content name description s) = Ok response ->
  let after := fst (layers.upload_layer env filename content name description s) in
  exists doc collection md,
    content = JsonText doc /\
    layers.wrap_geojson doc = Ok collection /\
    database.get_layer_geojson after (up_layer_id response) = Some collection /\
    database.get_layer after (up_layer_id response) = Some md /\
    md_feature_count md = up_feature_count response /\
    database.compute_metadata env (up_layer_id response) (up_name response)
      collection description = Ok md /\
    forall fw,
      (renders_json fw collection = true ->
       layers.get_layer_geojson fw after (up_layer_id response) = Ok collection) /\
      (validates fw md = true -> renders_model fw md = true ->
       layers.get_layer fw after (up_layer_id response) = Ok md).
Proof.
  intros Hok after. subst after.
  destruct (upload_layer_ok_document _ _ _ _ _ _ _ Hok)
    as (doc & collection & md & Hcontent & Hwrap & Hmd & Hstore & ->).
  exists doc, collection, md. rewrite Hstore. cbn [up_layer_id up_name up_feature_count].
  unfold layers.get_layer, layers.get_layer_geojson, layers.LayerInfo.
  rewrite get_layer_lookup, get_layer_geojson_lookup. cbn [geojson_files meta_files].
  rewrite !lookup_insert_eq, (wrap_geojson_truthy _ _ Hwrap).
  repeat split; try assumption.
  - intros ->. reflexivity.
  - intros -> ->. reflexivity.
Qed.

Lemma upload_then_get_witness :
  let after :=
    fst (layers.upload_layer sample_env "square.json" (JsonText (coords_feature square_ring))
           None (Some "a square") empty_store) in
  exists md,
    layers.get_layer_geojson sample_framework after "3f2a9c1e" =
      Ok (feature_collection_of (coords_feature square_ring)) /\
    layers.get_layer sample_framework after "3f2a9c1e" = Ok md /\
    md_description md = Some "a square".
Proof.
  cbv zeta.
  destruct (upload_then_get sample_env "square.json" (JsonText (coords_feature square_ring))
              None (Some "a square") empty_store
              (mk_UploadResponse true "3f2a9c1e" "square" 1
                 "Layer 'square' uploaded successfully") eq_refl)
    as (doc & collection & md & Hdoc & Hwrap & _ & _ & _ & Hmd & Hfw).
  injection Hdoc as <-. injection Hwrap as <-. injection Hmd as <-.
  destruct (Hfw sample_framework) as [Hraw Hget].
  eexists. split; [apply Hraw; reflexivity|].
  split; [apply Hget; reflexivity | reflexivity].
Defined.
